(** * Pulse System Info: the sampling core of [pulse_system_info_speed.py]

    A shallow embedding of [human_readable_bytes] and of the class
    [SystemData] (its constructor and [sample]), with the Python values the
    code manipulates:

    - a Python [float] is an IEEE 754 binary64 number, modelled by the
      Standard Library's executable specification [spec_float] at precision
      53 and maximal exponent 1024 (round to nearest, ties to even);
    - a Python [int] is an unbounded integer, [Z];
    - an exception is an explicit error value; [sample] runs in a small
      state-and-exception monad over the fields of [self];
    - a [collections.deque] is its list of items, oldest first, together with
      its [maxlen]. *)

From Stdlib Require Import String Ascii ZArith NArith List Bool Lia.
From Stdlib Require Import SpecFloat DecimalString.
Import ListNotations.

Local Open Scope Z_scope.

(** ** Python exceptions and results *)

Inductive exn : Type :=
  | ZeroDivisionError
  | OverflowError
  | IndexError.

Inductive result (A : Type) : Type :=
  | Ok (a : A)
  | Raise (e : exn).

Arguments Ok {A} a.
Arguments Raise {A} e.

Definition result_bind {A B} (r : result A) (k : A -> result B) : result B :=
  match r with
  | Ok a => k a
  | Raise e => Raise e
  end.

Definition returned {A} (r : result A) : bool :=
  match r with
  | Ok _ => true
  | Raise _ => false
  end.

(** ** Python floats (binary64) *)

Definition float : Type := spec_float.

Module PyFloat.

Definition prec : Z := 53.
Definition emax : Z := 1024.

Definition sub : float -> float -> float := SFsub prec emax.
Definition div : float -> float -> float := SFdiv prec emax.
Definition compare : float -> float -> option comparison := SFcompare.

(** The float nearest to an integer, infinite beyond the binary64 range. *)
Definition round_int (z : Z) : float := binary_normalize prec emax z 0 false.

(** Float literals of the source with an integral value. *)
Definition lit (z : Z) : float := round_int z.

Definition zero : float := S754_zero false.
Definition one : float := Eval cbv in round_int 1.

Definition is_zero (x : float) : bool :=
  match x with
  | S754_zero _ => true
  | _ => false
  end.

Definition is_finite (x : float) : bool :=
  match x with
  | S754_zero _ | S754_finite _ _ _ => true
  | _ => false
  end.

(** [float(z)] for a Python int: CPython's [PyLong_AsDouble] rounds to
    nearest-even and raises [OverflowError] when the result does not fit. *)
Definition of_int (z : Z) : result float :=
  match round_int z with
  | S754_infinity _ => Raise OverflowError
  | x => Ok x
  end.

(** [a / b] on floats: CPython's [float_div] raises on a zero divisor. *)
Definition truediv (a b : float) : result float :=
  if is_zero b then Raise ZeroDivisionError else Ok (div a b).

(** [z / b] with an int on the left: the int is converted first. *)
Definition int_truediv (z : Z) (b : float) : result float :=
  result_bind (of_int z) (fun a => truediv a b).

(** Exact comparison of a float with an int, as [float_richcompare] does it:
    no rounding of the integer takes place. *)
Definition compare_int (x : float) (z : Z) : option comparison :=
  match x with
  | S754_nan => None
  | S754_infinity s => Some (if s then Lt else Gt)
  | S754_zero _ => Some (Z.compare 0 z)
  | S754_finite s m e =>
      Some (if 0 <=? e
            then Z.compare (cond_Zopp s (Zpos m * 2 ^ e)) z
            else Z.compare (cond_Zopp s (Zpos m)) (z * 2 ^ (- e)))
  end.

Definition is_gt (c : option comparison) : bool :=
  match c with Some Gt => true | _ => false end.
Definition is_ge (c : option comparison) : bool :=
  match c with Some (Gt | Eq) => true | _ => false end.
Definition is_lt (c : option comparison) : bool :=
  match c with Some Lt => true | _ => false end.
Definition is_le (c : option comparison) : bool :=
  match c with Some (Lt | Eq) => true | _ => false end.

Definition is_eq (c : option comparison) : bool :=
  match c with Some Eq => true | _ => false end.

Definition eq_int (x : float) (z : Z) : bool := is_eq (compare_int x z).
Definition gt_int (x : float) (z : Z) : bool := is_gt (compare_int x z).
Definition ge_int (x : float) (z : Z) : bool := is_ge (compare_int x z).
Definition le_int (x : float) (z : Z) : bool := is_le (compare_int x z).
Definition lt_int (x : float) (z : Z) : bool := is_lt (compare_int x z).

Definition ge (x y : float) : bool := is_ge (compare x y).
Definition lt (x y : float) : bool := is_lt (compare x y).

End PyFloat.

(** ** [collections.deque] *)

Record deque (A : Type) : Type := Deque {
  maxlen : option nat;
  items : list A   (* leftmost (oldest) first *)
}.

Arguments Deque {A} maxlen items.
Arguments maxlen {A} d.
Arguments items {A} d.

Definition deque_new {A} (maxlen : option nat) : deque A := Deque maxlen [].

(** [d.append(x)]: the item goes to the right end; a bounded deque that has
    grown beyond [maxlen] then drops its leftmost item. *)
Definition deque_append {A} (x : A) (d : deque A) : deque A :=
  let xs := (items d ++ [x])%list in
  Deque (maxlen d)
        (match maxlen d with
         | Some n => if (n <? List.length xs)%nat then tl xs else xs
         | None => xs
         end).

Definition deque_len {A} (d : deque A) : nat := List.length (items d).

(** ** Module constants *)

Definition APP_UPDATE_INTERVAL_MS : Z := 1000.
Definition MAX_HISTORY : nat := 60.

(** ** Numbers as [human_readable_bytes] receives them

    The function is untyped: its argument is a Python int or a float. *)

Inductive pynum : Type :=
  | PyInt (z : Z)
  | PyFlt (x : float).

(** [n >= y] for a float [y]; an int is compared exactly. *)
Definition num_ge (n : pynum) (y : float) : bool :=
  match n with
  | PyInt z => PyFloat.le_int y z
  | PyFlt x => PyFloat.ge x y
  end.

(** [n < y] for a float [y]. *)
Definition num_lt (n : pynum) (y : float) : bool :=
  match n with
  | PyInt z => PyFloat.gt_int y z
  | PyFlt x => PyFloat.lt x y
  end.

(** [n >= 0] *)
Definition num_nonneg (n : pynum) : bool :=
  match n with
  | PyInt z => 0 <=? z
  | PyFlt x => PyFloat.ge_int x 0
  end.

(** [n / y] for a float [y]. *)
Definition num_truediv (n : pynum) (y : float) : result float :=
  match n with
  | PyInt z => PyFloat.int_truediv z y
  | PyFlt x => PyFloat.truediv x y
  end.

(** *** The format specification [.1f]

    CPython prints the exact binary value rounded to one decimal, ties to
    even. [tenths m e] is the value [m * 2^e] counted in tenths and rounded
    that way. *)

Definition tenths (m : positive) (e : Z) : Z :=
  if 0 <=? e then 10 * Zpos m * 2 ^ e
  else
    let d := 2 ^ (- e) in
    let q := (10 * Zpos m) / d in
    let r := (10 * Zpos m) mod d in
    match Z.compare (2 * r) d with
    | Lt => q
    | Gt => q + 1
    | Eq => if Z.even q then q else q + 1
    end.

Definition decimal (z : Z) : string := NilZero.string_of_uint (N.to_uint (Z.to_N z)).

Definition format_1f_float (x : float) : string :=
  match x with
  | S754_nan => "nan"
  | S754_infinity s => if s then "-inf" else "inf"
  | S754_zero s => if s then "-0.0" else "0.0"
  | S754_finite s m e =>
      let t := tenths m e in
      (if s then "-" else "") ++ decimal (t / 10) ++ "." ++ decimal (t mod 10)
  end%string.

(** An int is converted to a float before it is printed. *)
Definition format_1f (n : pynum) : result string :=
  match n with
  | PyInt z => result_bind (PyFloat.of_int z) (fun x => Ok (format_1f_float x))
  | PyFlt x => Ok (format_1f_float x)
  end.

(** ** [human_readable_bytes] *)

Definition step : float := PyFloat.lit 1024.
Definition units : list string := ["B"; "KB"; "MB"; "GB"; "TB"]%string.

(** [units[i]] *)
Definition units_at (i : nat) : result string :=
  match nth_error units i with
  | Some u => Ok u
  | None => Raise IndexError
  end.

(** The [while] loop, run for at most [fuel] iterations: [None] when the
    fuel is used up before the loop condition fails. *)
Fixpoint hrb_loop (fuel : nat) (n : pynum) (i : nat)
  : option (result (pynum * nat)) :=
  if num_ge n step && (i <? List.length units - 1)%nat then
    match fuel with
    | O => None
    | S fuel' =>
        match num_truediv n step with
        | Raise e => Some (Raise e)
        | Ok n' => hrb_loop fuel' (PyFlt n') (i + 1)
        end
    end
  else Some (Ok (n, i)).

Definition hrb_return (st : pynum * nat) : result string :=
  result_bind (format_1f (fst st)) (fun s =>
  result_bind (units_at (snd st)) (fun u =>
  Ok (s ++ " " ++ u)%string)).

Definition human_readable_bytes_fuel (fuel : nat) (n : pynum)
  : option (result string) :=
  option_map (fun r => result_bind r hrb_return) (hrb_loop fuel n 0).

(** The loop runs at most [len(units) - 1] times, see [hrb_loop_terminates]. *)
Definition human_readable_bytes (n : pynum) : option (result string) :=
  human_readable_bytes_fuel (List.length units - 1) n.

(** ** What the operating system reports

    [psutil.net_io_counters()] yields cumulative byte counters, Python ints;
    the clock, the CPU and the memory readings are floats. One [os_reading]
    holds the values the four calls made by [sample] return, in call order. *)

Record snetio : Type := Snetio {
  bytes_sent : Z;
  bytes_recv : Z
}.

Record os_reading : Type := OsReading {
  time_time : float;
  cpu_percent : float;
  virtual_memory_percent : float;
  net_io_counters : snetio
}.

(** ** class SystemData *)

Record SystemData : Type := MkSystemData {
  last_net : snetio;
  last_time : float;
  cpu_hist : deque float;
  ram_hist : deque float;
  net_sent_hist : deque float;
  net_recv_hist : deque float
}.

(** The dict returned by [sample]. *)
Record sample_dict : Type := SampleDict {
  cpu : float;
  ram : float;
  net_sent : float;
  net_recv : float
}.

(** A method body: it transforms [self] and returns or raises. A raise keeps
    the mutations made before it. *)
Definition method (A : Type) : Type := SystemData -> SystemData * result A.

Definition ret {A} (a : A) : method A := fun self => (self, Ok a).

Definition bind {A B} (m : method A) (k : A -> method B) : method B :=
  fun self =>
    match m self with
    | (self', Ok a) => k a self'
    | (self', Raise e) => (self', Raise e)
    end.

Definition get_self : method SystemData := fun self => (self, Ok self).

Definition assign (f : SystemData -> SystemData) : method unit :=
  fun self => (f self, Ok tt).

Definition eval {A} (r : result A) : method A := fun self => (self, r).

Declare Scope method_scope.
Delimit Scope method_scope with method.

Notation "x <- m ;; k" := (bind m (fun x => k))
  (at level 100, m at next level, right associativity) : method_scope.
Notation "m ;;; k" := (bind m (fun _ => k))
  (at level 100, right associativity) : method_scope.

Definition set_last_net (v : snetio) (s : SystemData) : SystemData :=
  MkSystemData v (last_time s) (cpu_hist s) (ram_hist s)
               (net_sent_hist s) (net_recv_hist s).
Definition set_last_time (v : float) (s : SystemData) : SystemData :=
  MkSystemData (last_net s) v (cpu_hist s) (ram_hist s)
               (net_sent_hist s) (net_recv_hist s).
Definition set_cpu_hist (v : deque float) (s : SystemData) : SystemData :=
  MkSystemData (last_net s) (last_time s) v (ram_hist s)
               (net_sent_hist s) (net_recv_hist s).
Definition set_ram_hist (v : deque float) (s : SystemData) : SystemData :=
  MkSystemData (last_net s) (last_time s) (cpu_hist s) v
               (net_sent_hist s) (net_recv_hist s).
Definition set_net_sent_hist (v : deque float) (s : SystemData) : SystemData :=
  MkSystemData (last_net s) (last_time s) (cpu_hist s) (ram_hist s)
               v (net_recv_hist s).
Definition set_net_recv_hist (v : deque float) (s : SystemData) : SystemData :=
  MkSystemData (last_net s) (last_time s) (cpu_hist s) (ram_hist s)
               (net_sent_hist s) v.

(** [SystemData.__init__]: [net] and [now] are what
    [psutil.net_io_counters()] and [time.time()] return at construction. *)
Definition init_fill (s : SystemData) : SystemData :=
  let s := set_cpu_hist (deque_append PyFloat.zero (cpu_hist s)) s in
  let s := set_ram_hist (deque_append PyFloat.zero (ram_hist s)) s in
  let s := set_net_sent_hist (deque_append PyFloat.zero (net_sent_hist s)) s in
  set_net_recv_hist (deque_append PyFloat.zero (net_recv_hist s)) s.

Definition init (net : snetio) (now : float) : SystemData :=
  let self :=
    MkSystemData net now
                 (deque_new (Some MAX_HISTORY)) (deque_new (Some MAX_HISTORY))
                 (deque_new (Some MAX_HISTORY)) (deque_new (Some MAX_HISTORY)) in
  Nat.iter MAX_HISTORY init_fill self.

(** [elapsed = now - self.last_time if now - self.last_time > 0 else 1.0] *)
Definition elapsed_of (now last : float) : float :=
  if PyFloat.gt_int (PyFloat.sub now last) 0
  then PyFloat.sub now last
  else PyFloat.one.

(** [SystemData.sample] *)
Definition sample (os : os_reading) : method sample_dict :=
  (let now := time_time os in
   let cpu := cpu_percent os in
   let ram := virtual_memory_percent os in
   let net := net_io_counters os in
   self <- get_self ;;
   let elapsed := elapsed_of now (last_time self) in
   sent_rate <- eval (PyFloat.int_truediv
                        (bytes_sent net - bytes_sent (last_net self)) elapsed) ;;
   recv_rate <- eval (PyFloat.int_truediv
                        (bytes_recv net - bytes_recv (last_net self)) elapsed) ;;
   assign (set_last_net net) ;;;
   assign (set_last_time now) ;;;
   assign (fun s => set_cpu_hist (deque_append cpu (cpu_hist s)) s) ;;;
   assign (fun s => set_ram_hist (deque_append ram (ram_hist s)) s) ;;;
   assign (fun s => set_net_sent_hist (deque_append sent_rate (net_sent_hist s)) s) ;;;
   assign (fun s => set_net_recv_hist (deque_append recv_rate (net_recv_hist s)) s) ;;;
   ret (SampleDict cpu ram sent_rate recv_rate))%method.

(** A sequence of calls, one per timer tick. A caller may call again after a
    call that raised, so the results are collected call by call. *)
Fixpoint sample_seq (oss : list os_reading) (self : SystemData)
  : SystemData * list (result sample_dict) :=
  match oss with
  | [] => (self, [])
  | os :: oss' =>
      let '(self1, r) := sample os self in
      let '(self2, rs) := sample_seq oss' self1 in
      (self2, r :: rs)
  end.

(** [d[-1]]: the rightmost item, if any. *)
Definition deque_peek {A} (d : deque A) : option A :=
  nth_error (items d) (deque_len d - 1).

(** [d[0]]: the leftmost item, if any. *)
Definition deque_first {A} (d : deque A) : option A := hd_error (items d).

(** Appending a run of items, left to right. *)
Definition deque_extend {A} (xs : list A) (d : deque A) : deque A :=
  fold_left (fun d x => deque_append x d) xs d.

(** The samples of the calls that returned. *)
Definition returned_samples (rs : list (result sample_dict)) : list sample_dict :=
  flat_map (fun r => match r with Ok d => [d] | Raise _ => [] end) rs.

(** States a program can observe: the constructor's, and those left by a
    call of [sample], whether it returned or raised. *)
Inductive reachable : SystemData -> Prop :=
  | reach_init net now : reachable (init net now)
  | reach_sample os self : reachable self -> reachable (fst (sample os self)).

(** ** [sample] with reads that can fail

    [sample] above takes what the four reads return. The reads themselves
    can fail: a read may raise, and [psutil.net_io_counters()] returns
    [None] on a machine without network interfaces, on which
    [net.bytes_sent] raises [AttributeError]. [time.time()] always returns.
    A call is then the reads, in source order, followed by [sample] on
    their values. *)

Inductive pyexc : Type :=
  | Arithmetic (e : exn)        (* raised by the arithmetic of [sample] *)
  | AttributeError              (* an attribute of [None] *)
  | ReadError (what : string).  (* whatever a read of the OS raised *)

Inductive outcome (A : Type) : Type :=
  | Returns (a : A)
  | Raises (e : pyexc).

Arguments Returns {A} a.
Arguments Raises {A} e.

Record os_calls : Type := OsCalls {
  call_time_time : float;
  call_cpu_percent : outcome float;
  call_virtual_memory_percent : outcome float;
  call_net_io_counters : outcome (option snetio)
}.

Definition sample_os (os : os_calls) (self : SystemData)
  : SystemData * outcome sample_dict :=
  let now := call_time_time os in
  match call_cpu_percent os with
  | Raises e => (self, Raises e)
  | Returns cpu =>
      match call_virtual_memory_percent os with
      | Raises e => (self, Raises e)
      | Returns ram =>
          match call_net_io_counters os with
          | Raises e => (self, Raises e)
          | Returns None => (self, Raises AttributeError)
          | Returns (Some net) =>
              match sample (OsReading now cpu ram net) self with
              | (self', Ok d) => (self', Returns d)
              | (self', Raise e) => (self', Raises (Arithmetic e))
              end
          end
      end
  end.

(** ** [PulseSystemInfoApp.format_bytes_per_sec]

    The method does not use [self]; [bps] is untyped like the argument of
    [human_readable_bytes]. *)

(** [a / b] rounded to the nearest integer, ties to even, for [b > 0]. *)
Definition round_half_even_div (a b : Z) : Z :=
  let q := a / b in
  let r := a mod b in
  match Z.compare (2 * r) b with
  | Lt => q
  | Gt => q + 1
  | Eq => if Z.even q then q else q + 1
  end.

(** The format specification [.0f]: the exact binary value [m * 2^e]
    rounded to an integer, ties to even ([ones]); the sign of a negative
    value is kept even when it rounds to zero. *)
Definition ones (m : positive) (e : Z) : Z :=
  if 0 <=? e then Zpos m * 2 ^ e
  else round_half_even_div (Zpos m) (2 ^ (- e)).

Definition format_0f_float (x : float) : string :=
  match x with
  | S754_nan => "nan"
  | S754_infinity s => if s then "-inf" else "inf"
  | S754_zero s => if s then "-0" else "0"
  | S754_finite s m e => (if s then "-" else "") ++ decimal (ones m e)
  end%string.

Definition format_0f (n : pynum) : result string :=
  match n with
  | PyInt z => result_bind (PyFloat.of_int z) (fun x => Ok (format_0f_float x))
  | PyFlt x => Ok (format_0f_float x)
  end.

(** [n < z] for an int literal [z]. *)
Definition num_lt_int (n : pynum) (z : Z) : bool :=
  match n with
  | PyInt a => a <? z
  | PyFlt x => PyFloat.lt_int x z
  end.

Definition format_bytes_per_sec (bps : pynum) : result string :=
  if num_lt_int bps 1024 then
    result_bind (format_0f bps) (fun s => Ok (s ++ " B/s")%string)
  else
    result_bind (num_truediv bps (PyFloat.lit 1024)) (fun kb =>
    result_bind (PyFloat.truediv kb (PyFloat.lit 1024)) (fun mb =>
    if PyFloat.lt_int kb 1024
    then Ok (format_1f_float kb ++ " KB/s")%string
    else Ok (format_1f_float mb ++ " MB/s")%string)).

(** ** The plot data built by [PulseSystemInfoApp.update]

    [update] hands each curve an x axis and a series. The calls into Qt are
    not modelled; these are the expressions passed to [setData]. *)

(** [list(range(a, b))] *)
Definition py_range (a b : Z) : list Z :=
  map (fun k => a + Z.of_nat k) (seq 0 (Z.to_nat (b - a))).

(** [x = list(range(-len(self.data.cpu_hist)+1, 1))] *)
Definition update_x (data : SystemData) : list Z :=
  py_range (- Z.of_nat (deque_len (cpu_hist data)) + 1) 1.

(** [[s/1024.0 for s in hist]] *)
Fixpoint kb_series (xs : list float) : result (list float) :=
  match xs with
  | [] => Ok []
  | s :: xs' =>
      result_bind (PyFloat.truediv s (PyFloat.lit 1024)) (fun y =>
      result_bind (kb_series xs') (fun ys => Ok (y :: ys)))
  end.

(** ** Reading a result back

    What the statements below compare the output with. *)

(** [a / b] printed with one decimal, rounded to nearest, ties to even. *)
Definition one_decimal (a b : Z) : string :=
  let t := round_half_even_div (10 * a) b in
  (decimal (t / 10) ++ "." ++ decimal (t mod 10))%string.

(** The float 2^k, for the exponents a normal number can have. *)
Definition pow2_float (k : Z) : float :=
  S754_finite false 4503599627370496 (k - 52).

(** The float [x / 2^k], computed without rounding on a finite [x]. *)
Definition scale_down (x : float) (k : Z) : float :=
  match x with
  | S754_finite s m e => S754_finite s m (e - k)
  | _ => x
  end.

(** ** Predicates used in the statements *)

(** A bounded deque filled to its capacity. *)
Definition full {A} (n : nat) (d : deque A) : Prop :=
  maxlen d = Some n /\ deque_len d = n.

(** Every history is bounded by [MAX_HISTORY] and holds that many items. *)
Definition histories_full (self : SystemData) : Prop :=
  full MAX_HISTORY (cpu_hist self) /\ full MAX_HISTORY (ram_hist self) /\
  full MAX_HISTORY (net_sent_hist self) /\ full MAX_HISTORY (net_recv_hist self).

Definition zeros : list float := repeat PyFloat.zero MAX_HISTORY.

(** The sign bit of a float that is not a NaN. *)
Definition has_sign (s : bool) (x : float) : Prop :=
  match x with
  | S754_zero s' | S754_infinity s' | S754_finite s' _ _ => s' = s
  | S754_nan => False
  end.

(** A normal binary64 number off the smallest exponent: 53 significant bits. *)
Definition normal (x : float) : Prop :=
  match x with
  | S754_finite _ m e =>
      Zpos (digits2_pos m) = 53 /\ -1074 < e <= 971
  | _ => False
  end.

(** A number [float()] accepts: every float, and the ints within range. *)
Definition fits_float (n : pynum) : Prop :=
  match n with
  | PyInt z => returned (PyFloat.of_int z) = true
  | PyFlt _ => True
  end.

(** ** Concrete runs used to exercise the statements *)

Definition tick (k : Z) : os_reading :=
  OsReading (PyFloat.lit k) (PyFloat.lit (k mod 101)) (PyFloat.lit 50)
            (Snetio (1000 * k) (500 * k)).

Definition ticks (from n : nat) : list os_reading :=
  map (fun k => tick (Z.of_nat k)) (seq from n).

Definition boot : SystemData := init (Snetio 0 0) (PyFloat.lit 0).

(** * Facts about binary64 arithmetic *)

Section Rounding.

Lemma shr_1_nonneg mrs : 0 <= shr_m mrs -> 0 <= shr_m (shr_1 mrs).
Proof.
  destruct mrs as [m r s]. destruct m as [|[p|p|]|p]; cbn; lia.
Qed.

Lemma iter_shr_1_nonneg p mrs :
  0 <= shr_m mrs -> 0 <= shr_m (iter_pos shr_1 p mrs).
Proof.
  revert mrs. induction p as [p IH|p IH|]; intros mrs H; cbn [iter_pos].
  - apply IH, IH, shr_1_nonneg, H.
  - apply IH, IH, H.
  - apply shr_1_nonneg, H.
Qed.

Lemma shr_record_of_loc_m m l : shr_m (shr_record_of_loc m l) = m.
Proof. destruct l as [|[ | | ]]; reflexivity. Qed.

Lemma shr_fexp_nonneg m e l :
  0 <= m -> 0 <= shr_m (fst (shr_fexp PyFloat.prec PyFloat.emax m e l)).
Proof.
  intros H. unfold shr_fexp, shr.
  destruct (fexp PyFloat.prec PyFloat.emax (Zdigits2 m + e) - e) as [|p|p]; cbn [fst].
  - now rewrite shr_record_of_loc_m.
  - apply iter_shr_1_nonneg. now rewrite shr_record_of_loc_m.
  - now rewrite shr_record_of_loc_m.
Qed.

Lemma round_nearest_even_nonneg m l : 0 <= m -> 0 <= round_nearest_even m l.
Proof.
  intros H. destruct l as [|[ | | ]]; cbn; try lia.
  destruct (Z.even m); lia.
Qed.

(** Rounding a non-negative mantissa never yields a NaN and keeps the
    sign it is given. *)
Lemma binary_round_aux_sign sx mx ex lx :
  0 <= mx -> has_sign sx (binary_round_aux PyFloat.prec PyFloat.emax sx mx ex lx).
Proof.
  intros H. unfold binary_round_aux.
  pose proof (shr_fexp_nonneg mx ex lx H) as H1.
  destruct (shr_fexp PyFloat.prec PyFloat.emax mx ex lx) as [mrs' e']. cbn [fst] in H1.
  pose proof (shr_fexp_nonneg _ e' loc_Exact
                (round_nearest_even_nonneg _ (loc_of_shr_record mrs') H1)) as H2.
  destruct (shr_fexp PyFloat.prec PyFloat.emax _ e' loc_Exact) as [mrs'' e'']. cbn [fst] in H2.
  destruct (shr_m mrs'') as [|m|m].
  - exact eq_refl.
  - destruct (_ <=? _); exact eq_refl.
  - lia.
Qed.

Lemma round_int_sign z :
  has_sign (z <? 0) (PyFloat.round_int z).
Proof.
  unfold PyFloat.round_int, binary_normalize, binary_round.
  destruct z as [|m|m]; [exact eq_refl| |];
    destruct (shl_align _ _ _) as [mz ez];
    apply binary_round_aux_sign; lia.
Qed.

Lemma of_int_sign z x : PyFloat.of_int z = Ok x -> has_sign (z <? 0) x.
Proof.
  unfold PyFloat.of_int. pose proof (round_int_sign z) as H.
  destruct (PyFloat.round_int z); intros E; try discriminate;
    injection E as <-; exact H.
Qed.

Lemma of_int_finite z x : PyFloat.of_int z = Ok x -> PyFloat.is_finite x = true.
Proof.
  unfold PyFloat.of_int. pose proof (round_int_sign z) as H.
  destruct (PyFloat.round_int z); intros E; try discriminate;
    injection E as <-; [reflexivity|contradiction|reflexivity].
Qed.

(** A finite dividend over a divisor that is not zero and not a NaN: the
    sign of the quotient is the exclusive or of the signs. *)
Lemma div_sign sx sy x y :
  PyFloat.is_finite x = true -> has_sign sx x ->
  PyFloat.is_zero y = false -> has_sign sy y ->
  has_sign (xorb sx sy) (PyFloat.div x y).
Proof.
  intros Hf Hx Hz Hy.
  destruct x as [s1|s1| |s1 m1 e1]; try discriminate;
    destruct y as [s2|s2| |s2 m2 e2]; try discriminate; try contradiction;
    cbn in Hx, Hy; subst; try exact eq_refl.
  unfold PyFloat.div, SFdiv, SFdiv_core_binary.
  set (m' := match _ with Z0 => Zpos m1 | Zpos _ => _ | Zneg _ => _ end).
  assert (Hm' : 0 <= m').
  { subst m'. destruct (_ - _ - _) as [|p|p]; try lia.
    apply Z.shiftl_nonneg. lia. }
  pose proof (Z.div_pos m' (Zpos m2) Hm' eq_refl) as Hq.
  unfold Z.div in Hq.
  destruct (Z.div_eucl m' (Zpos m2)) as [q r]. cbn [fst] in Hq.
  apply binary_round_aux_sign, Hq.
Qed.

(** Against the int 0 a finite non-zero float compares by its sign. *)
Lemma compare_int_finite_0 s m e :
  PyFloat.compare_int (S754_finite s m e) 0 = Some (if s then Lt else Gt).
Proof.
  unfold PyFloat.compare_int. f_equal.
  destruct (0 <=? e) eqn:E.
  - apply Z.leb_le in E.
    assert (0 < Zpos m * 2 ^ e)
      by (apply Z.mul_pos_pos; [lia|apply Z.pow_pos_nonneg; lia]).
    destruct s; cbn [cond_Zopp].
    + apply Z.compare_lt_iff. lia.
    + apply Z.compare_gt_iff. lia.
  - rewrite Z.mul_0_l. now destruct s.
Qed.

Lemma has_sign_ge_0 x : has_sign false x -> PyFloat.ge_int x 0 = true.
Proof.
  unfold PyFloat.ge_int.
  destruct x as [s|s| |s m e]; cbn [has_sign]; try contradiction; intros ->;
    try reflexivity.
  now rewrite compare_int_finite_0.
Qed.

Lemma has_sign_le_0 x : has_sign true x -> PyFloat.le_int x 0 = true.
Proof.
  unfold PyFloat.le_int.
  destruct x as [s|s| |s m e]; cbn [has_sign]; try contradiction; intros ->;
    try reflexivity.
  now rewrite compare_int_finite_0.
Qed.

(** A float above the int 0 is positive, and is not a zero. *)
Lemma gt_0_sign x :
  PyFloat.gt_int x 0 = true -> has_sign false x /\ PyFloat.is_zero x = false.
Proof.
  unfold PyFloat.gt_int.
  destruct x as [s|s| |s m e]; try discriminate.
  - destruct s; [discriminate|]. split; reflexivity.
  - rewrite compare_int_finite_0.
    destruct s; [discriminate|]. split; reflexivity.
Qed.

(** The divisor [sample] uses is positive whatever the clock says. *)
Lemma elapsed_of_positive now last :
  has_sign false (elapsed_of now last) /\
  PyFloat.is_zero (elapsed_of now last) = false.
Proof.
  unfold elapsed_of.
  destruct (PyFloat.gt_int (PyFloat.sub now last) 0) eqn:E.
  - now apply gt_0_sign.
  - split; reflexivity.
Qed.

(** The division in [sample] cannot raise [ZeroDivisionError], and its
    result carries the sign of the byte difference. *)
Lemma rate_sign z now last :
  match PyFloat.int_truediv z (elapsed_of now last) with
  | Ok r => has_sign (z <? 0) r
  | Raise e => e = OverflowError
  end.
Proof.
  unfold PyFloat.int_truediv, result_bind, PyFloat.truediv.
  destruct (elapsed_of_positive now last) as [Hs Hz].
  destruct (PyFloat.of_int z) as [x|e] eqn:E.
  - rewrite Hz.
    pose proof (div_sign (z <? 0) false x _ (of_int_finite _ _ E)
                  (of_int_sign _ _ E) Hz Hs) as H.
    now rewrite xorb_false_r in H.
  - unfold PyFloat.of_int in E.
    destruct (PyFloat.round_int z); congruence.
Qed.

End Rounding.

(** ** Conversion of ints and division by 1.0 *)

Section IntConversion.

Lemma digits2_size p : digits2_pos p = Pos.size p.
Proof. induction p; cbn; congruence. Qed.

Lemma digits2_log2 p : Zpos (digits2_pos p) = Z.log2 (Zpos p) + 1.
Proof.
  rewrite digits2_size. destruct p; cbn [Z.log2 Pos.size]; lia.
Qed.

Lemma Zdigits2_log2 z : 0 < z -> Zdigits2 z = Z.log2 z + 1.
Proof.
  destruct z as [|p|p]; try lia. intros _. apply digits2_log2.
Qed.

Lemma digits2_bounds p :
  2 ^ (Zpos (digits2_pos p) - 1) <= Zpos p < 2 ^ Zpos (digits2_pos p).
Proof.
  rewrite digits2_log2.
  pose proof (Z.log2_spec (Zpos p) eq_refl) as H.
  replace (Z.log2 (Zpos p) + 1 - 1) with (Z.log2 (Zpos p)) by lia.
  unfold Z.succ in H. exact H.
Qed.

Lemma digits2_unique p d :
  2 ^ (d - 1) <= Zpos p < 2 ^ d -> Zpos (digits2_pos p) = d.
Proof.
  intros H. rewrite digits2_log2.
  assert (0 < d).
  { destruct H as [_ H]. destruct d as [|d|d]; [cbn in H; lia|lia|].
    rewrite Z.pow_neg_r in H; lia. }
  rewrite (Z.log2_unique (Zpos p) (d - 1)); [lia|lia|].
  unfold Z.succ. now replace (d - 1 + 1) with d by lia.
Qed.

Lemma digits2_iter_xO m p :
  Zpos (digits2_pos (Pos.iter xO m p)) = Zpos (digits2_pos m) + Zpos p.
Proof.
  induction p as [|p IH] using Pos.peano_ind.
  - cbn. lia.
  - rewrite Pos.iter_succ. cbn [digits2_pos]. lia.
Qed.

Lemma shr_1_m mrs : 0 <= shr_m mrs -> shr_m (shr_1 mrs) = shr_m mrs / 2.
Proof.
  destruct mrs as [m r s]. cbn [shr_m]. intros H.
  rewrite <- Z.div2_div.
  destruct m as [|[q|q|]|q]; try reflexivity; lia.
Qed.

Lemma pow2_xI p : 2 ^ Zpos p~1 = 2 * (2 ^ Zpos p * 2 ^ Zpos p).
Proof.
  rewrite Pos2Z.inj_xI.
  replace (2 * Zpos p + 1) with (1 + (Zpos p + Zpos p)) by lia.
  rewrite !Z.pow_add_r by lia. now rewrite Z.pow_1_r.
Qed.

Lemma pow2_xO p : 2 ^ Zpos p~0 = 2 ^ Zpos p * 2 ^ Zpos p.
Proof.
  replace (Zpos p~0) with (Zpos p + Zpos p) by lia.
  apply Z.pow_add_r; lia.
Qed.

Lemma iter_shr_1_m p mrs :
  0 <= shr_m mrs -> shr_m (iter_pos shr_1 p mrs) = shr_m mrs / 2 ^ Zpos p.
Proof.
  revert mrs. induction p as [p IH|p IH|]; intros mrs H; cbn [iter_pos].
  - rewrite IH by (apply iter_shr_1_nonneg, shr_1_nonneg, H).
    rewrite IH by (apply shr_1_nonneg, H).
    rewrite shr_1_m by exact H.
    assert (0 < 2 ^ Zpos p) by (apply Z.pow_pos_nonneg; lia).
    rewrite !Z.div_div by lia.
    now rewrite pow2_xI, Z.mul_assoc.
  - rewrite IH by (apply iter_shr_1_nonneg, H).
    rewrite IH by exact H.
    assert (0 < 2 ^ Zpos p) by (apply Z.pow_pos_nonneg; lia).
    rewrite Z.div_div by lia.
    now rewrite pow2_xO.
  - rewrite shr_1_m by exact H. now rewrite Z.pow_1_r.
Qed.

(** The mantissa and the exponent [shr_fexp] arrives at. *)
Lemma shr_fexp_m m e l :
  0 <= m ->
  let n := Z.max 0 (fexp 53 1024 (Zdigits2 m + e) - e) in
  shr_m (fst (shr_fexp 53 1024 m e l)) = m / 2 ^ n /\
  snd (shr_fexp 53 1024 m e l) = e + n.
Proof.
  intros H. cbn zeta. unfold shr_fexp, shr.
  destruct (fexp 53 1024 (Zdigits2 m + e) - e) as [|p|p]; cbn [fst snd].
  - rewrite shr_record_of_loc_m. cbn. rewrite Z.div_1_r. lia.
  - rewrite iter_shr_1_m by now rewrite shr_record_of_loc_m.
    rewrite shr_record_of_loc_m.
    replace (Z.max 0 (Zpos p)) with (Zpos p) by lia. auto.
  - rewrite shr_record_of_loc_m. cbn. rewrite Z.div_1_r. lia.
Qed.

Lemma round_nearest_even_bounds m l :
  m <= round_nearest_even m l <= m + 1.
Proof.
  destruct l as [|[ | | ]]; cbn [round_nearest_even]; try lia.
  destruct (Z.even m); lia.
Qed.

(** Rounding an exact mantissa of at least 53 bits, away from the
    subnormal range: the result is a normal number or overflows. *)
Lemma binary_round_aux_normal s m e :
  53 <= Zpos (digits2_pos m) -> -1074 < e ->
  let x := binary_round_aux 53 1024 s (Zpos m) e loc_Exact in
  x = S754_infinity s \/ normal x.
Proof.
  intros Hd He. cbn zeta. unfold binary_round_aux.
  destruct (shr_fexp_m (Zpos m) e loc_Exact ltac:(lia)) as [Hm1 He1].
  destruct (shr_fexp 53 1024 (Zpos m) e loc_Exact) as [mrs1 e1].
  cbn [fst snd Zdigits2] in Hm1, He1.
  pose proof (digits2_bounds m) as Hb.
  set (d := Zpos (digits2_pos m)) in *.
  assert (Hn : Z.max 0 (fexp 53 1024 (d + e) - e) = d - 53)
    by (unfold fexp, emin; lia).
  rewrite Hn in Hm1, He1. clear Hn.
  assert (Hr1 : 4503599627370496 <= shr_m mrs1 < 9007199254740992).
  { assert (Hp : 0 < 2 ^ (d - 53)) by (apply Z.pow_pos_nonneg; lia).
    assert (E1 : 2 ^ (d - 1) = 2 ^ (d - 53) * 4503599627370496).
    { replace (d - 1) with ((d - 53) + 52) by lia.
      now rewrite Z.pow_add_r by lia. }
    assert (E2 : 2 ^ d = 2 ^ (d - 53) * 9007199254740992).
    { replace d with ((d - 53) + 53) at 1 by lia.
      now rewrite Z.pow_add_r by lia. }
    rewrite Hm1. split.
    - apply Z.div_le_lower_bound; lia.
    - apply Z.div_lt_upper_bound; lia. }
  pose proof (round_nearest_even_bounds (shr_m mrs1) (loc_of_shr_record mrs1)) as Hr2.
  set (m2 := round_nearest_even (shr_m mrs1) (loc_of_shr_record mrs1)) in *.
  destruct (shr_fexp_m m2 e1 loc_Exact ltac:(lia)) as [Hm2 He2].
  destruct (shr_fexp 53 1024 m2 e1 loc_Exact) as [mrs2 e2].
  cbn [fst snd] in Hm2, He2.
  rewrite Zdigits2_log2 in Hm2, He2 by lia.
  destruct (Z.eq_dec m2 9007199254740992) as [Heq|Hne].
  - rewrite Heq in Hm2, He2.
    change (Z.log2 9007199254740992) with 53 in Hm2, He2.
    assert (Hn : Z.max 0 (fexp 53 1024 (53 + 1 + e1) - e1) = 1)
      by (unfold fexp, emin; lia).
    rewrite Hn in Hm2, He2. clear Hn.
    change (9007199254740992 / 2 ^ 1) with 4503599627370496 in Hm2.
    rewrite Hm2.
    destruct (e2 <=? 1024 - 53) eqn:E; [right|now left].
    apply Z.leb_le in E. split; [reflexivity|lia].
  - assert (Hl : Z.log2 m2 = 52) by (apply Z.log2_unique; cbn; lia).
    rewrite Hl in Hm2, He2.
    assert (Hn : Z.max 0 (fexp 53 1024 (52 + 1 + e1) - e1) = 0)
      by (unfold fexp, emin; lia).
    rewrite Hn in Hm2, He2. clear Hn.
    rewrite Z.pow_0_r, Z.div_1_r in Hm2. rewrite Hm2.
    destruct m2 as [|q|q]; try lia.
    destruct (e2 <=? 1024 - 53) eqn:E; [right|now left].
    apply Z.leb_le in E. split; [|lia].
    rewrite digits2_log2, Hl. reflexivity.
Qed.

(** [float(z)] for a non-zero int is a normal number when it fits. *)
Lemma round_int_normal z :
  z <> 0 ->
  PyFloat.round_int z = S754_infinity (z <? 0) \/ normal (PyFloat.round_int z).
Proof.
  intros Hz.
  assert (H : forall s m,
             binary_round 53 1024 s m 0 = S754_infinity s \/
             normal (binary_round 53 1024 s m 0)).
  { intros s m. unfold binary_round, shl_align.
    set (d := Zpos (digits2_pos m)).
    assert (Hf : fexp 53 1024 (d + 0) = d - 53)
      by (unfold fexp, emin; subst d; lia).
    rewrite Hf.
    destruct (d - 53 - 0) as [|k|k] eqn:Ek.
    - apply binary_round_aux_normal; fold d; lia.
    - apply binary_round_aux_normal; fold d; lia.
    - apply binary_round_aux_normal; [rewrite digits2_iter_xO; fold d|]; lia. }
  unfold PyFloat.round_int, binary_normalize.
  destruct z as [|m|m]; [congruence| |]; apply H.
Qed.

Lemma of_int_zero_or_normal z x :
  PyFloat.of_int z = Ok x -> x = S754_zero false \/ normal x.
Proof.
  unfold PyFloat.of_int. destruct (Z.eq_dec z 0) as [->|Hz].
  - cbn. intros E. injection E as <-. now left.
  - destruct (round_int_normal z Hz) as [-> | H]; [discriminate|].
    destruct (PyFloat.round_int z); try contradiction.
    intros E. injection E as <-. now right.
Qed.

(** A 53-bit mantissa in range is left as it is. *)
Lemma binary_round_aux_exact s m e :
  Zpos (digits2_pos m) = 53 -> -1074 < e <= 971 ->
  binary_round_aux 53 1024 s (Zpos m) e loc_Exact = S754_finite s m e.
Proof.
  intros Hd He. unfold binary_round_aux, shr_fexp.
  cbn [Zdigits2]. rewrite Hd.
  replace (fexp 53 1024 (53 + e) - e) with 0 by (unfold fexp, emin; lia).
  cbn [shr shr_record_of_loc shr_m loc_of_shr_record round_nearest_even Zdigits2].
  rewrite Hd.
  replace (fexp 53 1024 (53 + e) - e) with 0 by (unfold fexp, emin; lia).
  cbn [shr shr_m].
  now replace (e <=? 1024 - 53) with true by (symmetry; apply Z.leb_le; lia).
Qed.

Lemma iter_xO_pow2 m k : Zpos (Pos.iter xO m k) = Zpos m * 2 ^ Zpos k.
Proof.
  induction k as [|k IH] using Pos.peano_ind.
  - cbn [Pos.iter]. lia.
  - rewrite Pos.iter_succ, Pos2Z.inj_xO, IH, Pos2Z.inj_succ, Z.pow_succ_r; lia.
Qed.

(** Ints below 2^53 in magnitude convert without rounding: the float
    compares equal to the int. *)
Lemma round_int_exact z :
  Z.abs z < 2 ^ 53 ->
  PyFloat.compare_int (PyFloat.round_int z) z = Some Eq.
Proof.
  intros Hz.
  assert (H : forall s m,
             Zpos m < 2 ^ 53 ->
             PyFloat.compare_int (binary_round 53 1024 s m 0)
                                 (cond_Zopp s (Zpos m)) = Some Eq).
  { intros s m Hm. unfold binary_round, shl_align.
    pose proof (digits2_bounds m) as Hb.
    set (d := Zpos (digits2_pos m)) in *.
    assert (Hd : 1 <= d <= 53).
    { split; [subst d; lia|].
      destruct (Z.le_gt_cases d 53) as [|Hgt]; [assumption|].
      assert (2 ^ 53 <= 2 ^ (d - 1)) by (apply Z.pow_le_mono_r; lia). lia. }
    assert (Hf : fexp 53 1024 (d + 0) = d - 53) by (unfold fexp, emin; lia).
    rewrite Hf.
    destruct (d - 53 - 0) as [|k|k] eqn:Ek; try lia.
    - rewrite binary_round_aux_exact by (fold d; lia).
      unfold PyFloat.compare_int. cbn [Z.leb Z.compare].
      now rewrite Z.pow_0_r, Z.mul_1_r, Z.compare_refl.
    - rewrite binary_round_aux_exact
        by (try rewrite digits2_iter_xO; fold d; lia).
      unfold PyFloat.compare_int.
      replace (0 <=? d - 53) with false by (symmetry; apply Z.leb_gt; lia).
      replace (- (d - 53)) with (Zpos k) by lia.
      rewrite iter_xO_pow2.
      replace (cond_Zopp s (Zpos m) * 2 ^ Zpos k)
        with (cond_Zopp s (Zpos m * 2 ^ Zpos k))
        by (destruct s; cbn [cond_Zopp];
            [symmetry; apply Z.mul_opp_l|reflexivity]).
      now rewrite Z.compare_refl. }
  unfold PyFloat.round_int, binary_normalize.
  destruct z as [|m|m]; [reflexivity| |].
  - apply (H false m). lia.
  - apply (H true m). lia.
Qed.

Lemma of_int_exact z x :
  Z.abs z < 2 ^ 53 -> PyFloat.of_int z = Ok x ->
  PyFloat.compare_int x z = Some Eq.
Proof.
  intros Hz. unfold PyFloat.of_int.
  pose proof (round_int_exact z Hz) as H.
  destruct (PyFloat.round_int z); intros E; try discriminate;
    injection E as <-; exact H.
Qed.

(** Dividing a normal number by 1.0 is exact. *)
Lemma div_one_normal x : normal x -> PyFloat.div x PyFloat.one = x.
Proof.
  destruct x as [s|s| |s m e]; try contradiction.
  intros [Hd He].
  unfold PyFloat.div, PyFloat.one, PyFloat.prec, PyFloat.emax, SFdiv.
  assert (Hcore : SFdiv_core_binary 53 1024 (Zpos m) e 4503599627370496 (-52)
                  = (Zpos m~0, e - 1, loc_Exact)).
  { unfold SFdiv_core_binary. cbn [Zdigits2]. rewrite Hd.
    change (Zpos (digits2_pos 4503599627370496)) with 53.
    assert (He' : Z.min (fexp 53 1024 (53 + e - (53 + -52))) (e - -52) = e - 1)
      by (unfold fexp, emin; lia).
    rewrite He'.
    replace (e - -52 - (e - 1)) with 53 by lia.
    rewrite Z.shiftl_mul_pow2 by lia.
    replace (Zpos m * 2 ^ 53) with (Zpos m~0 * 4503599627370496) by lia.
    pose proof (Z.div_mul (Zpos m~0) 4503599627370496 ltac:(lia)) as Hq.
    pose proof (Z.mod_mul (Zpos m~0) 4503599627370496 ltac:(lia)) as Hr.
    unfold Z.div, Z.modulo in Hq, Hr.
    destruct (Z.div_eucl _ _) as [q r]. cbn [fst snd] in Hq, Hr.
    now rewrite Hq, Hr. }
  rewrite Hcore. unfold binary_round_aux, shr_fexp.
  cbn [Zdigits2 digits2_pos]. rewrite Pos2Z.inj_succ, Hd.
  replace (fexp 53 1024 (Z.succ 53 + (e - 1)) - (e - 1)) with 1
    by (unfold fexp, emin; lia).
  cbn [shr shr_record_of_loc iter_pos shr_1 shr_m loc_of_shr_record orb
       round_nearest_even Zdigits2].
  rewrite Hd.
  replace (fexp 53 1024 (53 + (e - 1 + 1)) - (e - 1 + 1)) with 0
    by (unfold fexp, emin; lia).
  cbn [shr shr_m].
  replace (e - 1 + 1 <=? 1024 - 53) with true
    by (symmetry; apply Z.leb_le; lia).
  rewrite xorb_false_r. f_equal. lia.
Qed.

(** Dividing a converted int by 1.0 gives the converted int. *)
Lemma int_truediv_one z : PyFloat.int_truediv z PyFloat.one = PyFloat.of_int z.
Proof.
  unfold PyFloat.int_truediv, result_bind.
  destruct (PyFloat.of_int z) as [x|e] eqn:E; [|reflexivity].
  unfold PyFloat.truediv. cbn [PyFloat.is_zero PyFloat.one]. f_equal.
  destruct (of_int_zero_or_normal z x E) as [-> | H].
  - reflexivity.
  - now apply div_one_normal.
Qed.

(** Identical timestamps: the difference is not above 0, so the elapsed
    time falls back to 1.0. *)
Lemma sub_diag_not_positive t : PyFloat.gt_int (PyFloat.sub t t) 0 = false.
Proof.
  destruct t as [[|]|[|]| |s m e]; try reflexivity.
  unfold PyFloat.sub, SFsub. now rewrite Z.sub_diag.
Qed.

Lemma elapsed_of_same t : elapsed_of t t = PyFloat.one.
Proof. unfold elapsed_of. now rewrite sub_diag_not_positive. Qed.

End IntConversion.

(** * Facts about deques *)

Section DequeFacts.

Context {A : Type}.

Lemma deque_append_maxlen (x : A) d : maxlen (deque_append x d) = maxlen d.
Proof. reflexivity. Qed.

Lemma deque_append_items_full n (x : A) d :
  full n d -> items (deque_append x d) = tl (items d ++ [x]).
Proof.
  intros [Hm Hl]. unfold deque_append, deque_len in *. cbn [items].
  rewrite Hm, length_app, Hl. cbn [List.length].
  replace (n <? n + 1)%nat with true
    by (symmetry; apply Nat.ltb_lt; lia).
  reflexivity.
Qed.

Lemma deque_append_full n (x : A) d : full n d -> full n (deque_append x d).
Proof.
  intros H. split; [apply H|].
  unfold deque_len. rewrite (deque_append_items_full n x d H).
  destruct H as [_ Hl]. unfold deque_len in Hl.
  destruct (items d) as [|a l]; cbn in *; [lia|].
  rewrite length_app. cbn. lia.
Qed.

Lemma deque_append_peek n (x : A) d :
  full (S n) d -> deque_peek (deque_append x d) = Some x.
Proof.
  intros H. unfold deque_peek.
  destruct (deque_append_full (S n) x d H) as [_ Hl']. rewrite Hl'.
  rewrite (deque_append_items_full (S n) x d H).
  destruct H as [_ Hl]. unfold deque_len in Hl.
  destruct (items d) as [|a l]; cbn in Hl; [discriminate|].
  injection Hl as Hl. cbn [app tl].
  replace (S n - 1)%nat with (List.length l + 0)%nat by lia.
  rewrite nth_error_app2 by lia.
  replace (List.length l + 0 - List.length l)%nat with 0%nat by lia.
  reflexivity.
Qed.

Lemma deque_extend_full n (xs : list A) d : full n d -> full n (deque_extend xs d).
Proof.
  revert d. induction xs as [|x xs IH]; intros d H; cbn; [exact H|].
  apply IH, deque_append_full, H.
Qed.

(** A full deque that receives [xs] keeps the last [n] items of what it
    held followed by [xs]: the oldest leave first. *)
Lemma deque_extend_items n (xs : list A) d :
  full n d ->
  items (deque_extend xs d) = skipn (List.length xs) (items d ++ xs).
Proof.
  revert d. induction xs as [|x xs IH]; intros d H; cbn [deque_extend fold_left].
  - now rewrite app_nil_r.
  - change (fold_left _ xs ?d0) with (deque_extend xs d0).
    rewrite IH by (apply deque_append_full, H).
    rewrite (deque_append_items_full n x d H).
    destruct (items d) as [|a l]; cbn [app tl List.length skipn].
    + reflexivity.
    + now rewrite <- app_assoc.
Qed.

End DequeFacts.

(** * Facts about [SystemData] *)

Lemma init_eq net now :
  init net now =
  MkSystemData net now
               (Deque (Some MAX_HISTORY) zeros) (Deque (Some MAX_HISTORY) zeros)
               (Deque (Some MAX_HISTORY) zeros) (Deque (Some MAX_HISTORY) zeros).
Proof. reflexivity. Qed.

Lemma init_full net now : histories_full (init net now).
Proof. rewrite init_eq. repeat split. Qed.

(** [sample], statement by statement, comes down to this: the two divisions
    are the only places that can raise, and they precede every assignment. *)
Lemma sample_eq os self :
  sample os self =
  let elapsed := elapsed_of (time_time os) (last_time self) in
  match PyFloat.int_truediv
          (bytes_sent (net_io_counters os) - bytes_sent (last_net self)) elapsed
  with
  | Raise e => (self, Raise e)
  | Ok sent_rate =>
      match PyFloat.int_truediv
              (bytes_recv (net_io_counters os) - bytes_recv (last_net self)) elapsed
      with
      | Raise e => (self, Raise e)
      | Ok recv_rate =>
          (MkSystemData (net_io_counters os) (time_time os)
                        (deque_append (cpu_percent os) (cpu_hist self))
                        (deque_append (virtual_memory_percent os) (ram_hist self))
                        (deque_append sent_rate (net_sent_hist self))
                        (deque_append recv_rate (net_recv_hist self)),
           Ok (SampleDict (cpu_percent os) (virtual_memory_percent os)
                          sent_rate recv_rate))
      end
  end.
Proof.
  unfold sample, bind, get_self, eval, assign, ret. cbn zeta.
  destruct (PyFloat.int_truediv _ _) as [sr|e]; [|reflexivity].
  destruct (PyFloat.int_truediv _ _) as [rr|e]; reflexivity.
Qed.

(** What a call that returned did. *)
Lemma sample_returned os self self' d :
  sample os self = (self', Ok d) ->
  let elapsed := elapsed_of (time_time os) (last_time self) in
  PyFloat.int_truediv
    (bytes_sent (net_io_counters os) - bytes_sent (last_net self)) elapsed
    = Ok (net_sent d) /\
  PyFloat.int_truediv
    (bytes_recv (net_io_counters os) - bytes_recv (last_net self)) elapsed
    = Ok (net_recv d) /\
  cpu d = cpu_percent os /\ ram d = virtual_memory_percent os /\
  self' = MkSystemData (net_io_counters os) (time_time os)
            (deque_append (cpu d) (cpu_hist self))
            (deque_append (ram d) (ram_hist self))
            (deque_append (net_sent d) (net_sent_hist self))
            (deque_append (net_recv d) (net_recv_hist self)).
Proof.
  rewrite sample_eq. cbn zeta.
  destruct (PyFloat.int_truediv _ _) as [sr|e]; [|discriminate].
  destruct (PyFloat.int_truediv _ _) as [rr|e]; [|discriminate].
  intros H. injection H as <- <-. cbn. auto.
Qed.

(** A call that raised left [self] as it was. *)
Lemma sample_raised os self self' e :
  sample os self = (self', Raise e) -> self' = self.
Proof.
  rewrite sample_eq. cbn zeta.
  destruct (PyFloat.int_truediv _ _) as [sr|e1];
    [destruct (PyFloat.int_truediv _ _) as [rr|e2]|]; congruence.
Qed.

Lemma sample_full os self : histories_full self -> histories_full (fst (sample os self)).
Proof.
  intros H. destruct (sample os self) as [self' [d|e]] eqn:E; cbn [fst].
  - destruct (sample_returned _ _ _ _ E) as (_ & _ & _ & _ & ->).
    destruct H as (H1 & H2 & H3 & H4).
    repeat split; cbn; solve [apply H1 | apply H2 | apply H3 | apply H4
      | apply (deque_append_full MAX_HISTORY); assumption].
  - now rewrite (sample_raised _ _ _ _ E).
Qed.

Lemma reachable_full self : reachable self -> histories_full self.
Proof.
  induction 1 as [net now|os self _ IH].
  - apply init_full.
  - apply sample_full, IH.
Qed.

Lemma sample_seq_cons os oss self :
  sample_seq (os :: oss) self =
  (fst (sample_seq oss (fst (sample os self))),
   snd (sample os self) :: snd (sample_seq oss (fst (sample os self)))).
Proof.
  cbn [sample_seq]. destruct (sample os self) as [self1 r]. cbn [fst snd].
  now destruct (sample_seq oss self1).
Qed.

Lemma sample_seq_full oss self :
  histories_full self -> histories_full (fst (sample_seq oss self)).
Proof.
  revert self. induction oss as [|os oss IH]; intros self H.
  - exact H.
  - rewrite sample_seq_cons. cbn [fst]. apply IH, sample_full, H.
Qed.

Lemma sample_seq_reachable oss self :
  reachable self -> reachable (fst (sample_seq oss self)).
Proof.
  revert self. induction oss as [|os oss IH]; intros self H.
  - exact H.
  - rewrite sample_seq_cons. cbn [fst]. apply IH, reach_sample, H.
Qed.

(** The histories after one call: a returned sample is appended to each, a
    raise appends nothing. *)
Lemma sample_hist os self :
  let self' := fst (sample os self) in
  let ds := returned_samples [snd (sample os self)] in
  cpu_hist self' = deque_extend (map cpu ds) (cpu_hist self) /\
  ram_hist self' = deque_extend (map ram ds) (ram_hist self) /\
  net_sent_hist self' = deque_extend (map net_sent ds) (net_sent_hist self) /\
  net_recv_hist self' = deque_extend (map net_recv ds) (net_recv_hist self).
Proof.
  destruct (sample os self) as [self' [d|e]] eqn:E; cbn.
  - destruct (sample_returned _ _ _ _ E) as (_ & _ & _ & _ & ->). cbn. auto.
  - rewrite (sample_raised _ _ _ _ E). auto.
Qed.

Lemma deque_extend_app {A} (xs ys : list A) d :
  deque_extend (xs ++ ys) d = deque_extend ys (deque_extend xs d).
Proof. apply fold_left_app. Qed.

Lemma returned_samples_cons r rs :
  returned_samples (r :: rs) = returned_samples [r] ++ returned_samples rs.
Proof. cbn. now rewrite app_nil_r. Qed.

Lemma sample_seq_hist oss self :
  let self' := fst (sample_seq oss self) in
  let ds := returned_samples (snd (sample_seq oss self)) in
  cpu_hist self' = deque_extend (map cpu ds) (cpu_hist self) /\
  ram_hist self' = deque_extend (map ram ds) (ram_hist self) /\
  net_sent_hist self' = deque_extend (map net_sent ds) (net_sent_hist self) /\
  net_recv_hist self' = deque_extend (map net_recv ds) (net_recv_hist self).
Proof.
  revert self. induction oss as [|os oss IH]; intros self.
  - cbn. auto.
  - rewrite sample_seq_cons. cbn [fst snd]. cbn zeta.
    rewrite returned_samples_cons, !map_app, !deque_extend_app.
    destruct (IH (fst (sample os self))) as (-> & -> & -> & ->).
    destruct (sample_hist os self) as (-> & -> & -> & ->). auto.
Qed.

(** When every call returned, the recorded cpu and ram values are the
    readings, call by call. *)
Lemma sample_seq_readings oss self :
  forallb returned (snd (sample_seq oss self)) = true ->
  let ds := returned_samples (snd (sample_seq oss self)) in
  map cpu ds = map cpu_percent oss /\
  map ram ds = map virtual_memory_percent oss.
Proof.
  revert self. induction oss as [|os oss IH]; intros self.
  - cbn. auto.
  - rewrite sample_seq_cons. cbn [fst snd forallb]. cbn zeta.
    intros H. apply andb_prop in H as [Hr Hrs].
    rewrite returned_samples_cons, !map_app.
    destruct (IH _ Hrs) as [-> ->].
    destruct (sample os self) as [self' [d|e]] eqn:E; [|discriminate].
    destruct (sample_returned _ _ _ _ E) as (_ & _ & Hc & Hm & _).
    cbn. now rewrite Hc, Hm.
Qed.

(** [sample] raises only when a byte difference does not fit a float. *)
Lemma sample_returns os self :
  returned (PyFloat.of_int
              (bytes_sent (net_io_counters os) - bytes_sent (last_net self))) = true ->
  returned (PyFloat.of_int
              (bytes_recv (net_io_counters os) - bytes_recv (last_net self))) = true ->
  returned (snd (sample os self)) = true.
Proof.
  rewrite sample_eq. cbn zeta. unfold PyFloat.int_truediv, PyFloat.truediv.
  destruct (elapsed_of_positive (time_time os) (last_time self)) as [_ ->].
  destruct (PyFloat.of_int _) as [x|e]; [|discriminate].
  destruct (PyFloat.of_int _) as [y|e]; [|discriminate].
  reflexivity.
Qed.

Lemma sample_never_divides_by_zero os self :
  snd (sample os self) <> Raise ZeroDivisionError.
Proof.
  rewrite sample_eq. cbn zeta.
  pose proof (rate_sign (bytes_sent (net_io_counters os) - bytes_sent (last_net self))
                (time_time os) (last_time self)) as H1.
  pose proof (rate_sign (bytes_recv (net_io_counters os) - bytes_recv (last_net self))
                (time_time os) (last_time self)) as H2.
  destruct (PyFloat.int_truediv _ _) as [x|e1]; [|cbn; congruence].
  destruct (PyFloat.int_truediv _ _) as [y|e2]; cbn; congruence.
Qed.

(** The sign of each rate a returned sample carries: that of the byte
    difference it was computed from. *)
Lemma sample_rate_signs self os self' d :
  sample os self = (self', Ok d) ->
  has_sign (bytes_sent (net_io_counters os) - bytes_sent (last_net self) <? 0)
           (net_sent d) /\
  has_sign (bytes_recv (net_io_counters os) - bytes_recv (last_net self) <? 0)
           (net_recv d).
Proof.
  intros E.
  destruct (sample_returned _ _ _ _ E) as (Hs & Hr & _). cbn zeta in Hs, Hr.
  pose proof (rate_sign (bytes_sent (net_io_counters os) - bytes_sent (last_net self))
                (time_time os) (last_time self)) as Ss.
  pose proof (rate_sign (bytes_recv (net_io_counters os) - bytes_recv (last_net self))
                (time_time os) (last_time self)) as Sr.
  rewrite Hs in Ss. rewrite Hr in Sr. auto.
Qed.

(** * Facts about [human_readable_bytes] *)

Lemma step_not_zero : PyFloat.is_zero step = false.
Proof. reflexivity. Qed.

Lemma units_last : (List.length units - 1 = 4)%nat.
Proof. reflexivity. Qed.

(** One turn of the loop. *)
Lemma hrb_loop_S fuel n i :
  hrb_loop (S fuel) n i =
  if num_ge n step && (i <? 4)%nat then
    match num_truediv n step with
    | Raise e => Some (Raise e)
    | Ok n' => hrb_loop fuel (PyFlt n') (i + 1)
    end
  else Some (Ok (n, i)).
Proof. reflexivity. Qed.

(** More fuel does not change what the loop computes. *)
Lemma hrb_loop_more_fuel fuel fuel' n i r :
  (fuel <= fuel')%nat ->
  hrb_loop fuel n i = Some r -> hrb_loop fuel' n i = Some r.
Proof.
  revert fuel' n i. induction fuel as [|fuel IH]; intros fuel' n i Hle;
    destruct fuel' as [|fuel']; try lia; cbn [hrb_loop];
    destruct (num_ge n step && (i <? List.length units - 1)%nat);
    try discriminate; auto.
  destruct (num_truediv n step) as [x|e]; [|auto].
  apply IH. lia.
Qed.

(** The loop ends within [4 - i] iterations: the index stops it. *)
Lemma hrb_loop_terminates fuel n i :
  (4 - i <= fuel)%nat -> exists r, hrb_loop fuel n i = Some r.
Proof.
  revert n i. induction fuel as [|fuel IH]; intros n i Hle; cbn [hrb_loop];
    rewrite units_last;
    destruct (num_ge n step) ; cbn [andb]; eauto;
    destruct (Nat.ltb_spec i 4) as [Hi|Hi]; eauto; try lia.
  destruct (num_truediv n step) as [x|e]; eauto.
  apply IH. lia.
Qed.

(** Started on a float, the loop ends on a float and an index of [units]. *)
Lemma hrb_loop_float fuel x i :
  (i <= 4)%nat -> (4 - i <= fuel)%nat ->
  exists x' i', hrb_loop fuel (PyFlt x) i = Some (Ok (PyFlt x', i')) /\ (i' <= 4)%nat.
Proof.
  revert x i. induction fuel as [|fuel IH]; intros x i Hi Hle; cbn [hrb_loop];
    rewrite units_last;
    destruct (num_ge (PyFlt x) step); cbn [andb]; eauto;
    destruct (Nat.ltb_spec i 4) as [Hi'|Hi']; eauto; try lia.
  cbn [num_truediv]. unfold PyFloat.truediv. rewrite step_not_zero.
  apply IH; lia.
Qed.

Lemma units_at_In i : (i <= 4)%nat -> exists u, units_at i = Ok u /\ In u units.
Proof.
  intros H. unfold units_at.
  destruct (nth_error units i) as [u|] eqn:E.
  - exists u. split; [reflexivity|]. eapply nth_error_In, E.
  - apply nth_error_None in E. cbn in E. lia.
Qed.

(** Ints below 1024 all convert. *)
Lemma of_int_small z : 0 <= z < 1024 -> returned (PyFloat.of_int z) = true.
Proof.
  intros H.
  assert (A : forallb (fun k => returned (PyFloat.of_int (Z.of_nat k)))
                      (seq 0 1024) = true) by (vm_compute; reflexivity).
  rewrite forallb_forall in A.
  specialize (A (Z.to_nat z)). rewrite Z2Nat.id in A by lia.
  apply A, in_seq. lia.
Qed.

(** * The claims *)

(** C3. After the constructor and any sequence of calls of [sample] (the
    empty one included), each of the four histories has length 60. As the
    sequence is arbitrary, this holds after every call. *)
Theorem history_length_is_60 net now oss :
  let self := fst (sample_seq oss (init net now)) in
  deque_len (cpu_hist self) = 60%nat /\
  deque_len (ram_hist self) = 60%nat /\
  deque_len (net_sent_hist self) = 60%nat /\
  deque_len (net_recv_hist self) = 60%nat.
Proof.
  cbn zeta.
  destruct (sample_seq_full oss (init net now) (init_full net now))
    as ((_ & H1) & (_ & H2) & (_ & H3) & (_ & H4)).
  auto.
Qed.

(** C7. The constructor alone, followed by no call of [sample], leaves four
    histories of 60 items, each item the float 0.0; the counter snapshot is
    the one reading of the OS counters made by the constructor and the time
    is the construction time. *)
Theorem init_histories_zero_filled net now :
  let self := fst (sample_seq [] (init net now)) in
  items (cpu_hist self) = repeat PyFloat.zero 60 /\
  items (ram_hist self) = repeat PyFloat.zero 60 /\
  items (net_sent_hist self) = repeat PyFloat.zero 60 /\
  items (net_recv_hist self) = repeat PyFloat.zero 60 /\
  deque_len (cpu_hist self) = 60%nat /\
  deque_len (ram_hist self) = 60%nat /\
  deque_len (net_sent_hist self) = 60%nat /\
  deque_len (net_recv_hist self) = 60%nat /\
  last_net self = net /\ last_time self = now.
Proof. cbn zeta. cbn [sample_seq fst]. rewrite init_eq. repeat split. Qed.

(** C9. After a call of [sample] that returns, on any state the program can
    be in, the rightmost item of each history is the corresponding field of
    the returned dict. *)
Theorem sample_agrees_with_histories self os self' d :
  reachable self ->
  sample os self = (self', Ok d) ->
  deque_peek (cpu_hist self') = Some (cpu d) /\
  deque_peek (ram_hist self') = Some (ram d) /\
  deque_peek (net_sent_hist self') = Some (net_sent d) /\
  deque_peek (net_recv_hist self') = Some (net_recv d).
Proof.
  intros Hr E.
  destruct (reachable_full self Hr) as (H1 & H2 & H3 & H4).
  destruct (sample_returned _ _ _ _ E) as (_ & _ & _ & _ & ->).
  cbn [cpu_hist ram_hist net_sent_hist net_recv_hist].
  unfold MAX_HISTORY in *.
  repeat split; eapply deque_append_peek; eassumption.
Qed.

(** C8. A call that returns hands the CPU and memory readings through
    unchanged, so readings within [0, 100] give fields within [0, 100]. *)
Theorem percentages_pass_through self os self' d :
  PyFloat.ge_int (cpu_percent os) 0 = true ->
  PyFloat.le_int (cpu_percent os) 100 = true ->
  PyFloat.ge_int (virtual_memory_percent os) 0 = true ->
  PyFloat.le_int (virtual_memory_percent os) 100 = true ->
  sample os self = (self', Ok d) ->
  (cpu d = cpu_percent os /\ ram d = virtual_memory_percent os) /\
  (PyFloat.ge_int (cpu d) 0 = true /\ PyFloat.le_int (cpu d) 100 = true) /\
  (PyFloat.ge_int (ram d) 0 = true /\ PyFloat.le_int (ram d) 100 = true).
Proof.
  intros Hc0 Hc1 Hm0 Hm1 E.
  destruct (sample_returned _ _ _ _ E) as (_ & _ & -> & -> & _). auto.
Qed.

(** C5. Constructed at t=0 with counters (0, 0), then sampled at t=1 while
    the OS reports cpu 25.0, ram 40.0 and counters (2048, 1024): the call
    returns cpu 25.0, ram 40.0, net_sent 2048.0 and net_recv 1024.0, and each
    history holds 59 times 0.0 followed by the sampled value. *)
Theorem end_to_end_first_sample :
  let self := init (Snetio 0 0) (PyFloat.lit 0) in
  let os := OsReading (PyFloat.lit 1) (PyFloat.lit 25) (PyFloat.lit 40)
                      (Snetio 2048 1024) in
  let self' := fst (sample os self) in
  snd (sample os self) =
    Ok (SampleDict (PyFloat.lit 25) (PyFloat.lit 40)
                   (PyFloat.lit 2048) (PyFloat.lit 1024)) /\
  items (cpu_hist self') = repeat (PyFloat.lit 0) 59 ++ [PyFloat.lit 25] /\
  items (ram_hist self') = repeat (PyFloat.lit 0) 59 ++ [PyFloat.lit 40] /\
  items (net_sent_hist self') = repeat (PyFloat.lit 0) 59 ++ [PyFloat.lit 2048] /\
  items (net_recv_hist self') = repeat (PyFloat.lit 0) 59 ++ [PyFloat.lit 1024] /\
  deque_len (cpu_hist self') = 60%nat /\
  deque_len (ram_hist self') = 60%nat /\
  deque_len (net_sent_hist self') = 60%nat /\
  deque_len (net_recv_hist self') = 60%nat.
Proof. vm_compute. repeat split. Qed.

(** C4. With the snapshot (sent = 1000, t = 0), a call that reads 3000 sent
    bytes at t = 2 reports [net_sent] 1000.0; the call returns as soon as the
    received-bytes difference converts to a float. *)
Theorem sent_rate_2000_bytes_in_2_seconds self os :
  bytes_sent (last_net self) = 1000 ->
  last_time self = PyFloat.lit 0 ->
  bytes_sent (net_io_counters os) = 3000 ->
  time_time os = PyFloat.lit 2 ->
  (forall self' d, sample os self = (self', Ok d) -> net_sent d = PyFloat.lit 1000) /\
  (returned (PyFloat.of_int
               (bytes_recv (net_io_counters os) - bytes_recv (last_net self))) = true ->
   returned (snd (sample os self)) = true).
Proof.
  intros Hs Ht Hs' Ht'. split.
  - intros self' d E.
    destruct (sample_returned _ _ _ _ E) as (H & _). cbn zeta in H.
    rewrite Hs, Ht, Hs', Ht' in H.
    replace (PyFloat.int_truediv (3000 - 1000)
               (elapsed_of (PyFloat.lit 2) (PyFloat.lit 0)))
      with (Ok (PyFloat.lit 1000)) in H by (vm_compute; reflexivity).
    now injection H as <-.
  - rewrite sample_eq. cbn zeta. rewrite Hs, Ht, Hs', Ht'.
    replace (PyFloat.int_truediv (3000 - 1000)
               (elapsed_of (PyFloat.lit 2) (PyFloat.lit 0)))
      with (Ok (PyFloat.lit 1000)) by (vm_compute; reflexivity).
    replace (elapsed_of (PyFloat.lit 2) (PyFloat.lit 0))
      with (PyFloat.lit 2) by (vm_compute; reflexivity).
    unfold PyFloat.int_truediv.
    destruct (PyFloat.of_int _) as [x|e]; [|discriminate].
    intros _. reflexivity.
Qed.

(** C6. After 61 calls that returned, the cpu history holds the readings of
    calls 2 to 61 in order: the entry of the 1st call is gone, the leftmost
    item is the value of the 2nd call, and the 1st value occurs in the
    history only if a later call recorded the same value again. *)
Theorem first_sample_evicted_after_61_calls net now os1 os2 rest :
  List.length rest = 59%nat ->
  forallb returned (snd (sample_seq (os1 :: os2 :: rest) (init net now))) = true ->
  let self := fst (sample_seq (os1 :: os2 :: rest) (init net now)) in
  items (cpu_hist self) = map cpu_percent (os2 :: rest) /\
  deque_first (cpu_hist self) = Some (cpu_percent os2) /\
  (~ In (cpu_percent os1) (map cpu_percent (os2 :: rest)) ->
   ~ In (cpu_percent os1) (items (cpu_hist self))).
Proof.
  intros Hlen Hret. cbn zeta.
  assert (E : items (cpu_hist (fst (sample_seq (os1 :: os2 :: rest) (init net now))))
              = map cpu_percent (os2 :: rest)).
  { destruct (sample_seq_hist (os1 :: os2 :: rest) (init net now)) as (-> & _).
    destruct (sample_seq_readings _ _ Hret) as (-> & _).
    destruct (init_full net now) as (Hfull & _).
    rewrite (deque_extend_items MAX_HISTORY _ _ Hfull).
    rewrite init_eq. cbn [cpu_hist items].
    rewrite length_map. cbn [List.length]. rewrite Hlen.
    reflexivity. }
  unfold deque_first. rewrite E. cbn. auto.
Qed.

(** C1, as the code has it. [sample] divides the byte difference as it is:
    no clamp is applied. The rate a returning call reports for a counter is
    the float of the byte difference (counter read minus counter stored)
    divided by the elapsed time, and it carries the sign of that difference:
    it is >= 0 for a counter that did not decrease since the stored
    snapshot, and negatively signed, hence <= 0, for a counter that did. *)
Theorem rates_follow_sign_of_delta self os self' d :
  sample os self = (self', Ok d) ->
  let elapsed := elapsed_of (time_time os) (last_time self) in
  let dsent := bytes_sent (net_io_counters os) - bytes_sent (last_net self) in
  let drecv := bytes_recv (net_io_counters os) - bytes_recv (last_net self) in
  (exists x, PyFloat.of_int dsent = Ok x /\ net_sent d = PyFloat.div x elapsed) /\
  (exists y, PyFloat.of_int drecv = Ok y /\ net_recv d = PyFloat.div y elapsed) /\
  has_sign (dsent <? 0) (net_sent d) /\
  has_sign (drecv <? 0) (net_recv d) /\
  (bytes_sent (last_net self) <= bytes_sent (net_io_counters os) ->
   PyFloat.ge_int (net_sent d) 0 = true) /\
  (bytes_recv (last_net self) <= bytes_recv (net_io_counters os) ->
   PyFloat.ge_int (net_recv d) 0 = true) /\
  (bytes_sent (net_io_counters os) < bytes_sent (last_net self) ->
   PyFloat.le_int (net_sent d) 0 = true) /\
  (bytes_recv (net_io_counters os) < bytes_recv (last_net self) ->
   PyFloat.le_int (net_recv d) 0 = true).
Proof.
  intros E. cbn zeta.
  destruct (sample_rate_signs _ _ _ _ E) as [Ss Sr].
  destruct (sample_returned _ _ _ _ E) as (Hs & Hr & _). cbn zeta in Hs, Hr.
  destruct (elapsed_of_positive (time_time os) (last_time self)) as [_ Hz].
  assert (V : forall z r,
             PyFloat.int_truediv z (elapsed_of (time_time os) (last_time self)) = Ok r ->
             exists x, PyFloat.of_int z = Ok x /\
                       r = PyFloat.div x (elapsed_of (time_time os) (last_time self))).
  { intros z r. unfold PyFloat.int_truediv, PyFloat.truediv. rewrite Hz.
    destruct (PyFloat.of_int z) as [x|e]; cbn [result_bind]; [|discriminate].
    intros H. injection H as <-. now exists x. }
  split; [exact (V _ _ Hs)|]. split; [exact (V _ _ Hr)|].
  split; [exact Ss|]. split; [exact Sr|].
  repeat split; intros H.
  - apply has_sign_ge_0.
    now replace (_ <? 0) with false in Ss by (symmetry; apply Z.ltb_ge; lia).
  - apply has_sign_ge_0.
    now replace (_ <? 0) with false in Sr by (symmetry; apply Z.ltb_ge; lia).
  - apply has_sign_le_0.
    now replace (_ <? 0) with true in Ss by (symmetry; apply Z.ltb_lt; lia).
  - apply has_sign_le_0.
    now replace (_ <? 0) with true in Sr by (symmetry; apply Z.ltb_lt; lia).
Qed.

(** C1 as stated fails: constructed with 1000 sent bytes in the snapshot, a
    call one second later that reads 500 returns [net_sent] -500.0, which is
    not >= 0. *)
Lemma counter_regression_gives_negative_rate :
  let self := init (Snetio 1000 1000) (PyFloat.lit 0) in
  let os := OsReading (PyFloat.lit 1) (PyFloat.lit 25) (PyFloat.lit 40)
                      (Snetio 500 1000) in
  exists self' d,
    sample os self = (self', Ok d) /\
    net_sent d = PyFloat.lit (-500) /\
    PyFloat.ge_int (net_sent d) 0 = false.
Proof.
  eexists _, (SampleDict _ _ _ _). vm_compute. repeat split.
Qed.

(** C2, as the code has it. When the clock reading equals the stored
    timestamp (or, more generally, their difference is not above 0), the
    elapsed time is 1.0 and the call raises no
    [ZeroDivisionError]; when it returns, each rate is the byte difference
    converted to a float, hence finite; it is >= 0 for a counter that did
    not decrease, and compares equal to the byte difference when that is
    below 2^53 in magnitude. The call returns as soon as both differences
    fit a float. *)
Theorem same_timestamp_rate_is_byte_delta self os :
  time_time os = last_time self \/
  PyFloat.gt_int (PyFloat.sub (time_time os) (last_time self)) 0 = false ->
  let dsent := bytes_sent (net_io_counters os) - bytes_sent (last_net self) in
  let drecv := bytes_recv (net_io_counters os) - bytes_recv (last_net self) in
  elapsed_of (time_time os) (last_time self) = PyFloat.lit 1 /\
  snd (sample os self) <> Raise ZeroDivisionError /\
  (returned (PyFloat.of_int dsent) = true ->
   returned (PyFloat.of_int drecv) = true ->
   returned (snd (sample os self)) = true) /\
  (forall self' d,
     sample os self = (self', Ok d) ->
     PyFloat.of_int dsent = Ok (net_sent d) /\
     PyFloat.of_int drecv = Ok (net_recv d) /\
     PyFloat.is_finite (net_sent d) = true /\
     PyFloat.is_finite (net_recv d) = true /\
     (0 <= dsent -> PyFloat.ge_int (net_sent d) 0 = true) /\
     (0 <= drecv -> PyFloat.ge_int (net_recv d) 0 = true) /\
     (Z.abs dsent < 2 ^ 53 -> PyFloat.eq_int (net_sent d) dsent = true) /\
     (Z.abs drecv < 2 ^ 53 -> PyFloat.eq_int (net_recv d) drecv = true)).
Proof.
  intros Ht. cbn zeta.
  assert (He : elapsed_of (time_time os) (last_time self) = PyFloat.one).
  { destruct Ht as [Ht|Ht].
    - rewrite Ht. apply elapsed_of_same.
    - unfold elapsed_of. now rewrite Ht. }
  split; [exact He|].
  split; [apply sample_never_divides_by_zero|].
  split; [apply sample_returns|].
  intros self' d E.
  destruct (sample_rate_signs self os self' d E) as (Ss & Sr).
  destruct (sample_returned _ _ _ _ E) as (Hs & Hr & _). cbn zeta in Hs, Hr.
  rewrite He, int_truediv_one in Hs, Hr.
  repeat split; try assumption.
  - eapply of_int_finite, Hs.
  - eapply of_int_finite, Hr.
  - intros H. apply has_sign_ge_0.
    now replace (_ <? 0) with false in Ss by (symmetry; apply Z.ltb_ge; lia).
  - intros H. apply has_sign_ge_0.
    now replace (_ <? 0) with false in Sr by (symmetry; apply Z.ltb_ge; lia).
  - intros H. unfold PyFloat.eq_int. now rewrite (of_int_exact _ _ H Hs).
  - intros H. unfold PyFloat.eq_int. now rewrite (of_int_exact _ _ H Hr).
Qed.

(** C2 as stated fails on its "non-negative": two calls at the same
    timestamp, the second reading 500 sent bytes after 1000, and the second
    call returns [net_sent] -500.0. *)
Lemma same_timestamp_regression_gives_negative_rate :
  let os1 := OsReading (PyFloat.lit 5) (PyFloat.lit 25) (PyFloat.lit 40)
                       (Snetio 1000 1000) in
  let os2 := OsReading (PyFloat.lit 5) (PyFloat.lit 25) (PyFloat.lit 40)
                       (Snetio 500 1000) in
  exists d1 d2,
    snd (sample_seq [os1; os2] boot) = [Ok d1; Ok d2] /\
    time_time os2 = last_time (fst (sample os1 boot)) /\
    net_sent d2 = PyFloat.lit (-500) /\
    PyFloat.ge_int (net_sent d2) 0 = false.
Proof.
  eexists (SampleDict _ _ _ _), (SampleDict _ _ _ _). vm_compute. repeat split.
Qed.

(** C10, as the code has it. The loop of [human_readable_bytes] ends within
    four iterations for every input. For a non-negative float, and for a
    non-negative int that [float()] accepts, the function returns the number
    printed with one decimal, a space and one of the five units; below 1024
    the number printed is the argument itself and the unit is B. *)
Theorem human_readable_bytes_returns_unit n :
  num_nonneg n = true ->
  fits_float n ->
  (forall fuel, (4 <= fuel)%nat ->
     human_readable_bytes_fuel fuel n = human_readable_bytes n) /\
  (exists s u,
     human_readable_bytes n = Some (Ok (s ++ " " ++ u)%string) /\ In u units) /\
  (num_lt n step = true ->
   exists s, format_1f n = Ok s /\
             human_readable_bytes n = Some (Ok (s ++ " B")%string)).
Proof.
  intros Hn Hf. split; [|split].
  - intros fuel Hfuel. unfold human_readable_bytes, human_readable_bytes_fuel.
    rewrite units_last.
    destruct (hrb_loop_terminates 4 n 0 ltac:(lia)) as [r Hr].
    now rewrite Hr, (hrb_loop_more_fuel 4 fuel n 0 r Hfuel Hr).
  - unfold human_readable_bytes, human_readable_bytes_fuel. rewrite units_last.
    assert (H : exists x i, hrb_loop 4 n 0 = Some (Ok (x, i)) /\ (i <= 4)%nat /\
                            returned (format_1f x) = true).
    { destruct n as [z|x].
      - rewrite (hrb_loop_S 3).
        destruct (num_ge (PyInt z) step && (0 <? 4)%nat).
        + cbn [num_truediv]. unfold PyFloat.int_truediv, PyFloat.truediv.
          cbn [fits_float] in Hf.
          destruct (PyFloat.of_int z) as [x|e]; [|discriminate].
          cbn [result_bind]. rewrite step_not_zero.
          destruct (hrb_loop_float 3 (PyFloat.div x step) (0 + 1) ltac:(lia) ltac:(lia))
            as (x' & i' & -> & Hi).
          exists (PyFlt x'), i'. auto.
        + exists (PyInt z), 0%nat. repeat split; [lia|].
          cbn [fits_float] in Hf. cbn [format_1f].
          now destruct (PyFloat.of_int z).
      - destruct (hrb_loop_float 4 x 0 ltac:(lia) ltac:(lia))
          as (x' & i' & -> & Hi).
        exists (PyFlt x'), i'. auto. }
    destruct H as (x & i & -> & Hi & Hx).
    cbn [option_map result_bind]. unfold hrb_return. cbn [fst snd].
    destruct (format_1f x) as [s|e]; [|discriminate].
    destruct (units_at_In i Hi) as (u & -> & Hu).
    exists s, u. auto.
  - intros Hlt. unfold human_readable_bytes, human_readable_bytes_fuel.
    rewrite units_last, (hrb_loop_S 3).
    replace (num_ge n step) with false.
    + cbn [andb option_map result_bind]. unfold hrb_return. cbn [fst snd units_at].
      destruct n as [z|x]; cbn [format_1f fits_float] in *.
      * destruct (PyFloat.of_int z) as [x|e]; [|discriminate]. cbn. eauto.
      * cbn. eauto.
    + destruct n as [z|x]; cbn [num_lt num_ge] in *.
      * unfold PyFloat.gt_int in Hlt. unfold PyFloat.le_int.
        now destruct (PyFloat.compare_int step z) as [[ | | ]|].
      * unfold PyFloat.lt in Hlt. unfold PyFloat.ge.
        now destruct (PyFloat.compare x step) as [[ | | ]|].
Qed.

(** C10 as stated fails for a large int: the conversion made by the first
    division raises [OverflowError] on 2^1024, so nothing is returned. *)
Lemma human_readable_bytes_huge_int_raises :
  num_nonneg (PyInt (2 ^ 1024)) = true /\
  human_readable_bytes (PyInt (2 ^ 1024)) = Some (Raise OverflowError).
Proof. vm_compute. split; reflexivity. Qed.

(** * Concrete runs *)

(** Sixty-one ticks after boot: the history starts at the second tick. *)
Lemma first_sample_evicted_after_61_calls_run :
  let self := fst (sample_seq (ticks 1 61) boot) in
  items (cpu_hist self) = map cpu_percent (ticks 2 60) /\
  deque_first (cpu_hist self) = Some (PyFloat.lit 2) /\
  (~ In (PyFloat.lit 1) (map cpu_percent (ticks 2 60)) ->
   ~ In (PyFloat.lit 1) (items (cpu_hist self))).
Proof.
  exact (first_sample_evicted_after_61_calls (Snetio 0 0) (PyFloat.lit 0)
           (tick 1) (tick 2) (ticks 3 59) eq_refl eq_refl).
Defined.

(** The first tick after boot: both counters grew, both rates are >= 0. *)
Lemma rates_follow_sign_of_delta_run :
  sample (tick 1) boot =
    (fst (sample (tick 1) boot),
     Ok (SampleDict (PyFloat.lit 1) (PyFloat.lit 50)
                    (PyFloat.lit 1000) (PyFloat.lit 500))) /\
  (exists x, PyFloat.of_int (1000 * 1 - 0) = Ok x /\
             PyFloat.lit 1000
             = PyFloat.div x (elapsed_of (PyFloat.lit 1) (PyFloat.lit 0))) /\
  PyFloat.ge_int (PyFloat.lit 1000) 0 = true /\
  PyFloat.ge_int (PyFloat.lit 500) 0 = true.
Proof.
  assert (E : sample (tick 1) boot =
              (fst (sample (tick 1) boot),
               Ok (SampleDict (PyFloat.lit 1) (PyFloat.lit 50)
                              (PyFloat.lit 1000) (PyFloat.lit 500))))
    by (vm_compute; reflexivity).
  split; [exact E|].
  destruct (rates_follow_sign_of_delta _ _ _ _ E)
    as (V & _ & _ & _ & H1 & H2 & _).
  split; [exact V|].
  split; [apply H1|apply H2]; vm_compute; discriminate.
Defined.

(** A second call at the timestamp of the first. *)
Lemma same_timestamp_rate_is_byte_delta_run :
  let self := fst (sample (tick 5) boot) in
  let os := OsReading (PyFloat.lit 5) (PyFloat.lit 30) (PyFloat.lit 50)
                      (Snetio 7000 2500) in
  time_time os = last_time self /\
  elapsed_of (time_time os) (last_time self) = PyFloat.lit 1 /\
  snd (sample os self) <> Raise ZeroDivisionError /\
  returned (snd (sample os self)) = true.
Proof.
  cbn zeta.
  pose proof (same_timestamp_rate_is_byte_delta
                (fst (sample (tick 5) boot))
                (OsReading (PyFloat.lit 5) (PyFloat.lit 30) (PyFloat.lit 50)
                           (Snetio 7000 2500))
                (or_introl eq_refl)) as (H1 & H2 & H3 & _).
  split; [reflexivity|]. split; [exact H1|]. split; [exact H2|].
  apply H3; reflexivity.
Defined.

(** The snapshot (1000, t = 0) read again at t = 2 with 3000 sent bytes. *)
Lemma sent_rate_2000_bytes_in_2_seconds_run :
  let self := init (Snetio 1000 0) (PyFloat.lit 0) in
  let os := OsReading (PyFloat.lit 2) (PyFloat.lit 10) (PyFloat.lit 20)
                      (Snetio 3000 0) in
  (forall self' d, sample os self = (self', Ok d) -> net_sent d = PyFloat.lit 1000) /\
  returned (snd (sample os self)) = true.
Proof.
  cbn zeta.
  destruct (sent_rate_2000_bytes_in_2_seconds
              (init (Snetio 1000 0) (PyFloat.lit 0))
              (OsReading (PyFloat.lit 2) (PyFloat.lit 10) (PyFloat.lit 20)
                         (Snetio 3000 0))
              eq_refl eq_refl eq_refl eq_refl) as [H1 H2].
  split; [exact H1|apply H2; reflexivity].
Defined.

(** The first tick reports cpu 1.0 and ram 50.0, both within bounds. *)
Lemma percentages_pass_through_run :
  let d := SampleDict (PyFloat.lit 1) (PyFloat.lit 50)
                      (PyFloat.lit 1000) (PyFloat.lit 500) in
  (cpu d = cpu_percent (tick 1) /\ ram d = virtual_memory_percent (tick 1)) /\
  (PyFloat.ge_int (cpu d) 0 = true /\ PyFloat.le_int (cpu d) 100 = true) /\
  (PyFloat.ge_int (ram d) 0 = true /\ PyFloat.le_int (ram d) 100 = true).
Proof.
  exact (percentages_pass_through boot (tick 1) (fst (sample (tick 1) boot))
           (SampleDict (PyFloat.lit 1) (PyFloat.lit 50)
                       (PyFloat.lit 1000) (PyFloat.lit 500))
           eq_refl eq_refl eq_refl eq_refl eq_refl).
Defined.

(** After the first tick each history ends with the value just returned. *)
Lemma sample_agrees_with_histories_run :
  let self' := fst (sample (tick 1) boot) in
  deque_peek (cpu_hist self') = Some (PyFloat.lit 1) /\
  deque_peek (ram_hist self') = Some (PyFloat.lit 50) /\
  deque_peek (net_sent_hist self') = Some (PyFloat.lit 1000) /\
  deque_peek (net_recv_hist self') = Some (PyFloat.lit 500).
Proof.
  exact (sample_agrees_with_histories boot (tick 1) (fst (sample (tick 1) boot))
           (SampleDict (PyFloat.lit 1) (PyFloat.lit 50)
                       (PyFloat.lit 1000) (PyFloat.lit 500))
           (reach_init (Snetio 0 0) (PyFloat.lit 0)) eq_refl).
Defined.

(** 1536 bytes: an int that converts, printed with a unit of the list. *)
Lemma human_readable_bytes_returns_unit_run :
  (forall fuel, (4 <= fuel)%nat ->
     human_readable_bytes_fuel fuel (PyInt 1536) = human_readable_bytes (PyInt 1536)) /\
  (exists s u,
     human_readable_bytes (PyInt 1536) = Some (Ok (s ++ " " ++ u)%string) /\
     In u units) /\
  (num_lt (PyInt 1536) step = true ->
   exists s, format_1f (PyInt 1536) = Ok s /\
             human_readable_bytes (PyInt 1536) = Some (Ok (s ++ " B")%string)).
Proof.
  exact (human_readable_bytes_returns_unit (PyInt 1536) eq_refl eq_refl).
Defined.

(** Some values of [human_readable_bytes]. *)
Example human_readable_bytes_values :
  human_readable_bytes (PyInt 0) = Some (Ok "0.0 B"%string) /\
  human_readable_bytes (PyInt 1023) = Some (Ok "1023.0 B"%string) /\
  human_readable_bytes (PyInt 1024) = Some (Ok "1.0 KB"%string) /\
  human_readable_bytes (PyInt 1536) = Some (Ok "1.5 KB"%string) /\
  human_readable_bytes (PyInt 123456789) = Some (Ok "117.7 MB"%string) /\
  human_readable_bytes (PyInt (1024 ^ 5)) = Some (Ok "1024.0 TB"%string) /\
  human_readable_bytes (PyFlt (S754_infinity false)) = Some (Ok "inf TB"%string).
Proof. vm_compute. repeat split. Qed.

(** * Further properties of [SystemData] *)

(** X1. Whatever the calls made after the constructor, each history holds
    the last 60 items of: the 60 pre-filled zeros followed by the values of
    the calls that returned, in call order. Calls that raised left no
    trace. *)
Theorem histories_are_sliding_windows net now oss :
  let self := fst (sample_seq oss (init net now)) in
  let ds := returned_samples (snd (sample_seq oss (init net now))) in
  let window (xs : list float) :=
    skipn (List.length ds) (repeat PyFloat.zero 60 ++ xs) in
  items (cpu_hist self) = window (map cpu ds) /\
  items (ram_hist self) = window (map ram ds) /\
  items (net_sent_hist self) = window (map net_sent ds) /\
  items (net_recv_hist self) = window (map net_recv ds).
Proof.
  cbn zeta.
  destruct (sample_seq_hist oss (init net now)) as (-> & -> & -> & ->).
  destruct (init_full net now) as (H1 & H2 & H3 & H4).
  rewrite (deque_extend_items _ _ _ H1), (deque_extend_items _ _ _ H2),
          (deque_extend_items _ _ _ H3), (deque_extend_items _ _ _ H4).
  rewrite !length_map, init_eq. repeat split.
Qed.

(** X2. Once 60 calls have returned, no pre-filled zero is left: the four
    histories are the fields of the same last 60 returned samples, oldest
    first, so that equal positions belong to the same call. *)
Theorem histories_hold_last_60_samples net now oss :
  let self := fst (sample_seq oss (init net now)) in
  let ds := returned_samples (snd (sample_seq oss (init net now))) in
  (60 <= List.length ds)%nat ->
  let recent := skipn (List.length ds - 60) ds in
  List.length recent = 60%nat /\
  items (cpu_hist self) = map cpu recent /\
  items (ram_hist self) = map ram recent /\
  items (net_sent_hist self) = map net_sent recent /\
  items (net_recv_hist self) = map net_recv recent.
Proof.
  cbn zeta. intros Hlen.
  destruct (sample_seq_hist oss (init net now)) as (-> & -> & -> & ->).
  destruct (init_full net now) as (H1 & H2 & H3 & H4).
  rewrite (deque_extend_items _ _ _ H1), (deque_extend_items _ _ _ H2),
          (deque_extend_items _ _ _ H3), (deque_extend_items _ _ _ H4).
  rewrite !length_map. rewrite init_eq in Hlen |- *.
  cbn [cpu_hist ram_hist net_sent_hist net_recv_hist items].
  assert (W : forall (f : sample_dict -> float) ds,
             (60 <= List.length ds)%nat ->
             skipn (List.length ds) (zeros ++ map f ds)
             = map f (skipn (List.length ds - 60) ds)).
  { intros f ds H. unfold zeros, MAX_HISTORY. rewrite skipn_app, repeat_length.
    replace (skipn (List.length ds) (repeat PyFloat.zero 60)) with (@nil float)
      by (symmetry; apply skipn_all2; rewrite repeat_length; exact H).
    cbn [app]. now rewrite skipn_map. }
  rewrite !W by exact Hlen.
  split; [rewrite length_skipn; lia|]. repeat split.
Qed.



(** X4. Two calls in a row: the rates of the second are computed from the
    readings of the two calls alone, the byte differences between them over
    the time between them, whatever the state before the first call. *)
Theorem consecutive_rates_use_previous_reading self os1 os2 self1 d1 self2 d2 :
  sample os1 self = (self1, Ok d1) ->
  sample os2 self1 = (self2, Ok d2) ->
  let elapsed := elapsed_of (time_time os2) (time_time os1) in
  PyFloat.int_truediv
    (bytes_sent (net_io_counters os2) - bytes_sent (net_io_counters os1)) elapsed
    = Ok (net_sent d2) /\
  PyFloat.int_truediv
    (bytes_recv (net_io_counters os2) - bytes_recv (net_io_counters os1)) elapsed
    = Ok (net_recv d2).
Proof.
  intros E1 E2. cbn zeta.
  destruct (sample_returned _ _ _ _ E1) as (_ & _ & _ & _ & ->).
  destruct (sample_returned _ _ _ _ E2) as (Hs & Hr & _).
  cbn [last_net last_time] in Hs, Hr. auto.
Qed.

(** X5. A counter that did not move since the snapshot gives the rate 0.0
    exactly, whatever the two timestamps are. *)
Theorem unchanged_counter_gives_zero_rate self os self' d :
  sample os self = (self', Ok d) ->
  (bytes_sent (net_io_counters os) = bytes_sent (last_net self) ->
   net_sent d = PyFloat.zero) /\
  (bytes_recv (net_io_counters os) = bytes_recv (last_net self) ->
   net_recv d = PyFloat.zero).
Proof.
  intros E.
  destruct (sample_returned _ _ _ _ E) as (Hs & Hr & _). cbn zeta in Hs, Hr.
  destruct (elapsed_of_positive (time_time os) (last_time self)) as [Hp Hz].
  assert (Z0 : forall r, PyFloat.int_truediv 0
                 (elapsed_of (time_time os) (last_time self)) = Ok r ->
               r = PyFloat.zero).
  { intros r. unfold PyFloat.int_truediv, PyFloat.truediv. cbn [result_bind PyFloat.of_int].
    change (PyFloat.of_int 0) with (@Ok float PyFloat.zero). cbn [result_bind].
    rewrite Hz. intros H. injection H as <-.
    destruct (elapsed_of _ _) as [s|s| |s m e]; cbn in Hp, Hz;
      try discriminate; try contradiction; subst; reflexivity. }
  split; intros H; rewrite H, Z.sub_diag in *; auto.
Qed.

(** Two ticks after boot, the second read against the first. *)
Lemma consecutive_rates_use_previous_reading_run :
  let d2 := SampleDict (PyFloat.lit 2) (PyFloat.lit 50)
                       (PyFloat.lit 1000) (PyFloat.lit 500) in
  PyFloat.int_truediv (2000 - 1000)
                      (elapsed_of (PyFloat.lit 2) (PyFloat.lit 1)) = Ok (net_sent d2) /\
  PyFloat.int_truediv (1000 - 500)
                      (elapsed_of (PyFloat.lit 2) (PyFloat.lit 1)) = Ok (net_recv d2).
Proof.
  exact (consecutive_rates_use_previous_reading boot (tick 1) (tick 2)
           (fst (sample (tick 1) boot))
           (SampleDict (PyFloat.lit 1) (PyFloat.lit 50)
                       (PyFloat.lit 1000) (PyFloat.lit 500))
           (fst (sample (tick 2) (fst (sample (tick 1) boot))))
           (SampleDict (PyFloat.lit 2) (PyFloat.lit 50)
                       (PyFloat.lit 1000) (PyFloat.lit 500))
           eq_refl eq_refl).
Defined.

(** A tick with both counters where the snapshot has them. *)
Lemma unchanged_counter_gives_zero_rate_run :
  let os := OsReading (PyFloat.lit 3) (PyFloat.lit 10) (PyFloat.lit 20)
                      (Snetio 0 0) in
  exists d,
    snd (sample os boot) = Ok d /\
    net_sent d = PyFloat.zero /\ net_recv d = PyFloat.zero.
Proof.
  cbn zeta.
  assert (E : sample (OsReading (PyFloat.lit 3) (PyFloat.lit 10) (PyFloat.lit 20)
                                (Snetio 0 0)) boot =
              (fst (sample (OsReading (PyFloat.lit 3) (PyFloat.lit 10)
                                      (PyFloat.lit 20) (Snetio 0 0)) boot),
               Ok (SampleDict (PyFloat.lit 10) (PyFloat.lit 20)
                              PyFloat.zero PyFloat.zero)))
    by (vm_compute; reflexivity).
  eexists. split; [rewrite E; reflexivity|].
  destruct (unchanged_counter_gives_zero_rate _ _ _ _ E) as [H1 H2].
  split; [apply H1|apply H2]; reflexivity.
Defined.

(** * Scaling by powers of two *)

Section PowersOfTwo.

Lemma lit_1024 : PyFloat.lit 1024 = pow2_float 10.
Proof. reflexivity. Qed.

(** Dividing a normal number by a power of two only moves its exponent,
    as long as the quotient is normal too. *)
Lemma div_pow2_normal s m e k :
  Zpos (digits2_pos m) = 53 -> -1073 <= e - k <= 971 ->
  PyFloat.div (S754_finite s m e) (pow2_float k) = S754_finite s m (e - k).
Proof.
  intros Hd He.
  unfold PyFloat.div, pow2_float, PyFloat.prec, PyFloat.emax, SFdiv.
  assert (Hcore : SFdiv_core_binary 53 1024 (Zpos m) e 4503599627370496 (k - 52)
                  = (Zpos m~0, e - k - 1, loc_Exact)).
  { unfold SFdiv_core_binary. cbn [Zdigits2]. rewrite Hd.
    change (Zpos (digits2_pos 4503599627370496)) with 53.
    assert (He' : Z.min (fexp 53 1024 (53 + e - (53 + (k - 52)))) (e - (k - 52))
                  = e - k - 1)
      by (unfold fexp, emin; lia).
    rewrite He'.
    replace (e - (k - 52) - (e - k - 1)) with 53 by lia.
    rewrite Z.shiftl_mul_pow2 by lia.
    replace (Zpos m * 2 ^ 53) with (Zpos m~0 * 4503599627370496) by lia.
    pose proof (Z.div_mul (Zpos m~0) 4503599627370496 ltac:(lia)) as Hq.
    pose proof (Z.mod_mul (Zpos m~0) 4503599627370496 ltac:(lia)) as Hr.
    unfold Z.div, Z.modulo in Hq, Hr.
    destruct (Z.div_eucl _ _) as [q r]. cbn [fst snd] in Hq, Hr.
    now rewrite Hq, Hr. }
  rewrite Hcore. unfold binary_round_aux, shr_fexp.
  cbn [Zdigits2 digits2_pos]. rewrite Pos2Z.inj_succ, Hd.
  replace (fexp 53 1024 (Z.succ 53 + (e - k - 1)) - (e - k - 1)) with 1
    by (unfold fexp, emin; lia).
  cbn [shr shr_record_of_loc iter_pos shr_1 shr_m loc_of_shr_record orb
       round_nearest_even Zdigits2].
  rewrite Hd.
  replace (fexp 53 1024 (53 + (e - k - 1 + 1)) - (e - k - 1 + 1)) with 0
    by (unfold fexp, emin; lia).
  cbn [shr shr_m].
  replace (e - k - 1 + 1 <=? 1024 - 53) with true
    by (symmetry; apply Z.leb_le; lia).
  rewrite xorb_false_r. f_equal. lia.
Qed.

(** A 53-bit mantissa is at least 2^52. *)
Lemma mantissa_53_bounds m :
  Zpos (digits2_pos m) = 53 -> 4503599627370496 <= Zpos m < 9007199254740992.
Proof.
  intros Hd. pose proof (digits2_bounds m) as H. rewrite Hd in H. exact H.
Qed.

(** A positive normal number against 2^k, as floats: the exponents decide. *)
Lemma ge_pow2_normal m e k :
  Zpos (digits2_pos m) = 53 ->
  PyFloat.ge (S754_finite false m e) (pow2_float k) = (k - 52 <=? e).
Proof.
  intros Hd. apply mantissa_53_bounds in Hd.
  unfold PyFloat.ge, PyFloat.compare, pow2_float, SFcompare.
  destruct (Z.compare_spec e (k - 52)) as [E|E|E].
  - rewrite Pos.compare_cont_spec. cbn [Pos.switch_Eq].
    destruct (Pos.compare_spec m 4503599627370496) as [C|C|C]; cbn;
      try (symmetry; apply Z.leb_le; lia).
    exfalso. apply Pos2Z.pos_lt_pos in C. lia.
  - cbn. symmetry. apply Z.leb_gt. lia.
  - cbn. symmetry. apply Z.leb_le. lia.
Qed.

(** A normal number against the int 2^p: again the exponents decide. *)
Lemma compare_int_pow2_normal s m e p :
  Zpos (digits2_pos m) = 53 -> 0 <= p ->
  PyFloat.lt_int (S754_finite s m e) (2 ^ p) = (s || (e <? p - 52)) /\
  PyFloat.ge_int (S754_finite s m e) (2 ^ p) = negb (s || (e <? p - 52)).
Proof.
  intros Hd Hp. apply mantissa_53_bounds in Hd.
  unfold PyFloat.lt_int, PyFloat.ge_int, PyFloat.compare_int.
  assert (P : 0 < 2 ^ p) by (apply Z.pow_pos_nonneg; lia).
  destruct (0 <=? e) eqn:E0.
  - apply Z.leb_le in E0.
    assert (Q : 0 < 2 ^ e) by (apply Z.pow_pos_nonneg; lia).
    destruct s; cbn [cond_Zopp orb].
    + assert (C : (- (Zpos m * 2 ^ e) ?= 2 ^ p) = Lt)
        by (apply Z.compare_lt_iff; nia).
      rewrite C. split; reflexivity.
    + destruct (Z.ltb_spec e (p - 52)) as [L|L].
      * assert (C : (Zpos m * 2 ^ e ?= 2 ^ p) = Lt).
        { apply Z.compare_lt_iff.
          assert (A : 2 ^ (53 + e) <= 2 ^ p) by (apply Z.pow_le_mono_r; lia).
          rewrite Z.pow_add_r in A by lia.
          change (2 ^ 53) with 9007199254740992 in A. nia. }
        rewrite C. split; reflexivity.
      * assert (C : 2 ^ p <= Zpos m * 2 ^ e).
        { assert (A : 2 ^ p <= 2 ^ (52 + e)) by (apply Z.pow_le_mono_r; lia).
          rewrite Z.pow_add_r in A by lia.
          change (2 ^ 52) with 4503599627370496 in A. nia. }
        destruct (Z.compare_spec (Zpos m * 2 ^ e) (2 ^ p)); cbn;
          try (split; reflexivity); lia.
  - apply Z.leb_gt in E0.
    assert (Q : 0 < 2 ^ (- e)) by (apply Z.pow_pos_nonneg; lia).
    rewrite <- Z.pow_add_r by lia.
    assert (R : 0 < 2 ^ (p + - e)) by (apply Z.pow_pos_nonneg; lia).
    destruct s; cbn [cond_Zopp orb].
    + assert (C : (- Zpos m ?= 2 ^ (p + - e)) = Lt)
        by (apply Z.compare_lt_iff; lia).
      rewrite C. split; reflexivity.
    + destruct (Z.ltb_spec e (p - 52)) as [L|L].
      * assert (C : (Zpos m ?= 2 ^ (p + - e)) = Lt).
        { apply Z.compare_lt_iff.
          assert (2 ^ 53 <= 2 ^ (p + - e)) by (apply Z.pow_le_mono_r; lia).
          change (2 ^ 53) with 9007199254740992 in *. lia. }
        rewrite C. split; reflexivity.
      * assert (C : 2 ^ (p + - e) <= Zpos m).
        { assert (2 ^ (p + - e) <= 2 ^ 52) by (apply Z.pow_le_mono_r; lia).
          change (2 ^ 52) with 4503599627370496 in *. lia. }
        destruct (Z.compare_spec (Zpos m) (2 ^ (p + - e))); cbn;
          try (split; reflexivity); lia.
Qed.

End PowersOfTwo.

(** * Further properties of [human_readable_bytes] *)

Lemma step_pow2 : step = pow2_float 10.
Proof. reflexivity. Qed.

(** [n] turns of the loop on a positive normal float: each divides by 1024
    exactly, by lowering the exponent by 10. *)
Lemma hrb_loop_normal n :
  forall fuel m e i,
    Zpos (digits2_pos m) = 53 -> e <= 971 ->
    (i + n <= 4)%nat -> (n <= fuel)%nat ->
    ((0 < n)%nat -> -42 <= e - 10 * (Z.of_nat n - 1)) ->
    ((i + n = 4)%nat \/ e - 10 * Z.of_nat n < -42) ->
    hrb_loop fuel (PyFlt (S754_finite false m e)) i
    = Some (Ok (PyFlt (S754_finite false m (e - 10 * Z.of_nat n)), (i + n)%nat)).
Proof.
  induction n as [|n IH]; intros fuel m e i Hd He Hi Hf Hgo Hstop.
  - assert (C : num_ge (PyFlt (S754_finite false m e)) step
                && (i <? List.length units - 1)%nat = false).
    { cbn [num_ge]. rewrite step_pow2, (ge_pow2_normal m e 10 Hd), units_last.
      destruct Hstop as [Hs|Hs].
      - replace (i <? 4)%nat with false by (symmetry; apply Nat.ltb_ge; lia).
        apply andb_false_r.
      - replace (10 - 52 <=? e) with false by (symmetry; apply Z.leb_gt; lia).
        reflexivity. }
    replace (e - 10 * Z.of_nat 0) with e by lia. rewrite Nat.add_0_r.
    destruct fuel; cbn [hrb_loop]; now rewrite C.
  - destruct fuel as [|fuel]; [lia|].
    rewrite hrb_loop_S.
    cbn [num_ge num_truediv]. rewrite step_pow2, (ge_pow2_normal m e 10 Hd).
    replace (10 - 52 <=? e) with true by (symmetry; apply Z.leb_le; lia).
    replace (i <? 4)%nat with true by (symmetry; apply Nat.ltb_lt; lia).
    cbn [andb]. unfold PyFloat.truediv. cbn [PyFloat.is_zero pow2_float].
    change (S754_finite false 4503599627370496 (10 - 52)) with (pow2_float 10).
    rewrite (div_pow2_normal false m e 10 Hd) by lia.
    rewrite (IH fuel m (e - 10) (i + 1)%nat Hd); try lia.
    do 3 f_equal; [do 2 f_equal; lia|lia].
Qed.

(** X6. The unit chosen for a normal float: [units[k]] exactly when the
    value lies in [1024^k, 1024^(k+1)), with everything below 1024 (negative
    values included) in B and everything from 1024^4 on in TB; the number
    printed is the value divided by 1024^k without any rounding before the
    decimal conversion. *)
Theorem human_readable_bytes_float_units x k :
  normal x -> (k <= 4)%nat ->
  (k = 0%nat \/ PyFloat.ge_int x (1024 ^ Z.of_nat k) = true) ->
  (k = 4%nat \/ PyFloat.lt_int x (1024 ^ Z.of_nat (k + 1)) = true) ->
  human_readable_bytes (PyFlt x)
  = Some (Ok (format_1f_float (scale_down x (10 * Z.of_nat k))
              ++ " " ++ nth k units "")%string).
Proof.
  destruct x as [s|s| |s m e]; try contradiction.
  intros [Hd He] Hk Hlo Hhi.
  assert (P : forall j : nat, 1024 ^ Z.of_nat j = 2 ^ (10 * Z.of_nat j))
    by (intros j; rewrite Z.pow_mul_r by lia; reflexivity).
  rewrite P in Hlo, Hhi.
  destruct (compare_int_pow2_normal s m e (10 * Z.of_nat k) Hd ltac:(lia))
    as [_ Hge].
  destruct (compare_int_pow2_normal s m e (10 * Z.of_nat (k + 1)) Hd ltac:(lia))
    as [Hlt _].
  rewrite Hge in Hlo. rewrite Hlt in Hhi. clear Hge Hlt P.
  unfold human_readable_bytes, human_readable_bytes_fuel. rewrite units_last.
  cbn [scale_down].
  destruct s.
  - (* a negative number is below every threshold: the loop does not run *)
    destruct Hlo as [->|Hlo]; [|discriminate].
    cbn [hrb_loop num_ge]. rewrite units_last.
    replace (PyFloat.ge (S754_finite true m e) step) with false by reflexivity.
    cbn [andb option_map result_bind]. unfold hrb_return.
    cbn [fst snd format_1f result_bind units_at nth_error units nth].
    now replace (e - 10 * Z.of_nat 0) with e by lia.
  - cbn [orb negb] in Hlo, Hhi.
    rewrite (hrb_loop_normal k 4 m e 0 Hd); try lia.
    + cbn [option_map result_bind Nat.add]. unfold hrb_return.
      cbn [fst snd format_1f result_bind].
      destruct (units_at_In k Hk) as (u & Hu & _).
      rewrite Hu. cbn [result_bind].
      unfold units_at in Hu.
      destruct (nth_error units k) as [u'|] eqn:E; [|discriminate].
      injection Hu as <-. now rewrite (nth_error_nth _ _ ""%string E).
    + destruct Hhi as [->|Hhi]; [now left|right].
      apply Z.ltb_lt in Hhi. lia.
Qed.

Lemma Z_compare_scale x y c : 0 < c -> (x * c ?= y * c) = (x ?= y).
Proof.
  intros Hc. destruct (Z.compare_spec x y) as [E|E|E].
  - subst. apply Z.compare_refl.
  - apply Z.compare_lt_iff. nia.
  - apply Z.compare_gt_iff. nia.
Qed.

(** Scaling numerator and denominator does not change the rounded quotient. *)
Lemma round_half_even_div_scale a b c :
  0 < b -> 0 < c ->
  round_half_even_div (a * c) (b * c) = round_half_even_div a b.
Proof.
  intros Hb Hc. unfold round_half_even_div.
  rewrite Z.div_mul_cancel_r, Z.mul_mod_distr_r by lia.
  replace (2 * (a mod b * c)) with (2 * (a mod b) * c) by lia.
  now rewrite Z_compare_scale by lia.
Qed.

(** The tenths of [z / 2^j], read off a mantissa that is [z] shifted left. *)
Lemma tenths_scaled m z t j :
  0 <= t -> 0 <= j -> Zpos m = z * 2 ^ t ->
  tenths m (- (t + j)) = round_half_even_div (10 * z) (2 ^ j).
Proof.
  intros Ht Hj Hm. unfold tenths.
  assert (Pt : 0 < 2 ^ t) by (apply Z.pow_pos_nonneg; lia).
  assert (Pj : 0 < 2 ^ j) by (apply Z.pow_pos_nonneg; lia).
  destruct (Z.leb_spec 0 (- (t + j))) as [H|H].
  - assert (t = 0) by lia. assert (j = 0) by lia. subst t j.
    cbn [Z.add Z.opp]. rewrite Z.pow_0_r in *. rewrite Hm.
    unfold round_half_even_div.
    rewrite Z.div_1_r, Z.mod_1_r. change (2 * 0 ?= 1) with Lt. cbv iota. lia.
  - change (round_half_even_div (10 * Zpos m) (2 ^ (- - (t + j)))
            = round_half_even_div (10 * z) (2 ^ j)).
    rewrite Z.opp_involutive, Hm, Z.pow_add_r by lia.
    replace (10 * (z * 2 ^ t)) with (10 * z * 2 ^ t) by lia.
    rewrite (Z.mul_comm (2 ^ t) (2 ^ j)).
    now apply round_half_even_div_scale.
Qed.

(** [float(z)] for a positive int below 2^53: [z] shifted to 53 bits. *)
Lemma round_int_below_2_53 p :
  Zpos p < 2 ^ 53 ->
  exists m,
    PyFloat.round_int (Zpos p) = S754_finite false m (Zpos (digits2_pos p) - 53) /\
    Zpos (digits2_pos m) = 53 /\
    Zpos m = Zpos p * 2 ^ (53 - Zpos (digits2_pos p)).
Proof.
  intros Hp.
  unfold PyFloat.round_int, binary_normalize, binary_round, shl_align,
    PyFloat.prec, PyFloat.emax.
  pose proof (digits2_bounds p) as Hb.
  set (d := Zpos (digits2_pos p)) in *.
  assert (Hd : 1 <= d <= 53).
  { split; [subst d; lia|].
    destruct (Z.le_gt_cases d 53) as [|Hgt]; [assumption|].
    assert (2 ^ 53 <= 2 ^ (d - 1)) by (apply Z.pow_le_mono_r; lia). lia. }
  assert (Hf : fexp 53 1024 (d + 0) = d - 53) by (unfold fexp, emin; lia).
  rewrite Hf.
  destruct (d - 53 - 0) as [|k|k] eqn:Ek; try lia.
  - exists p. rewrite binary_round_aux_exact by (fold d; lia).
    replace (d - 53) with 0 by lia. replace (53 - d) with 0 by lia.
    repeat split; [fold d|]; lia.
  - exists (Pos.iter xO p k).
    rewrite binary_round_aux_exact
      by (try rewrite digits2_iter_xO; fold d; lia).
    repeat split.
    + rewrite digits2_iter_xO. fold d. lia.
    + rewrite iter_xO_pow2. f_equal. f_equal. lia.
Qed.

(** An int against 1024.0: the comparison is exact. *)
Lemma num_ge_int_step z : num_ge (PyInt z) step = (1024 <=? z).
Proof.
  cbn [num_ge]. rewrite step_pow2.
  unfold PyFloat.le_int, PyFloat.compare_int, pow2_float, PyFloat.is_le.
  change (0 <=? 10 - 52) with false. cbv iota. cbn [cond_Zopp].
  change (2 ^ (- (10 - 52))) with 4398046511104.
  destruct (Z.compare_spec 4503599627370496 (z * 4398046511104));
    destruct (Z.leb_spec 1024 z); try reflexivity; lia.
Qed.

(** X7. The result for an int below 2^53: with [k] such that
    1024^k <= z < 1024^(k+1) (k = 0 below 1024, k = 4 from 1024^4 on), the
    function returns z / 1024^k printed with one decimal, rounded to nearest
    with ties to even, followed by [units[k]]. *)
Theorem human_readable_bytes_int_units z k :
  0 <= z < 2 ^ 53 -> (k <= 4)%nat ->
  (k = 0%nat \/ 1024 ^ Z.of_nat k <= z) ->
  (k = 4%nat \/ z < 1024 ^ Z.of_nat (k + 1)) ->
  human_readable_bytes (PyInt z)
  = Some (Ok (one_decimal z (1024 ^ Z.of_nat k) ++ " " ++ nth k units "")%string).
Proof.
  intros Hz Hk Hlo Hhi.
  assert (P : forall j : nat, 1024 ^ Z.of_nat j = 2 ^ (10 * Z.of_nat j))
    by (intros j; rewrite Z.pow_mul_r by lia; reflexivity).
  rewrite P in *.
  assert (Pk : 0 < 2 ^ (10 * Z.of_nat k)) by (apply Z.pow_pos_nonneg; lia).
  destruct z as [|p|p]; [| |lia].
  - (* zero *)
    destruct Hlo as [->|Hlo]; [reflexivity|lia].
  - destruct (round_int_below_2_53 p ltac:(lia)) as (m & Hr & Hd & Hm).
    pose proof (digits2_bounds p) as Hb.
    set (d := Zpos (digits2_pos p)) in *.
    assert (Hd1 : 1 <= d) by (subst d; lia).
    assert (Hd53 : d <= 53).
    { destruct (Z.le_gt_cases d 53) as [|Hgt]; [assumption|].
      assert (2 ^ 53 <= 2 ^ (d - 1)) by (apply Z.pow_le_mono_r; lia). lia. }
    assert (Hof : PyFloat.of_int (Zpos p) = Ok (S754_finite false m (d - 53)))
      by (unfold PyFloat.of_int; now rewrite Hr).
    (* the thresholds, read on the number of bits *)
    assert (Lo : k = 0%nat \/ 10 * Z.of_nat k < d).
    { destruct Hlo as [Hlo|Hlo]; [now left|right].
      apply (Z.pow_lt_mono_r_iff 2); lia. }
    assert (Hi : k = 4%nat \/ d - 1 < 10 * Z.of_nat (k + 1)).
    { destruct Hhi as [Hhi|Hhi]; [now left|right].
      apply (Z.pow_lt_mono_r_iff 2); lia. }
    assert (F : format_1f_float (S754_finite false m (d - 53 - 10 * Z.of_nat k))
                = one_decimal (Zpos p) (2 ^ (10 * Z.of_nat k))).
    { unfold format_1f_float, one_decimal.
      replace (d - 53 - 10 * Z.of_nat k)
        with (- ((53 - d) + 10 * Z.of_nat k)) by lia.
      now rewrite (tenths_scaled m (Zpos p) (53 - d) (10 * Z.of_nat k)) by lia. }
    unfold human_readable_bytes, human_readable_bytes_fuel.
    rewrite units_last, (hrb_loop_S 3), num_ge_int_step.
    assert (U : exists u, units_at k = Ok u /\ nth k units ""%string = u).
    { destruct (units_at_In k Hk) as (u & Hu & _). exists u. split; [exact Hu|].
      unfold units_at in Hu.
      destruct (nth_error units k) as [u'|] eqn:E; [|discriminate].
      injection Hu as <-. now apply nth_error_nth. }
    destruct U as (u & Hu & ->).
    destruct k as [|k].
    + (* below 1024: no division *)
      replace (1024 <=? Zpos p) with false
        by (symmetry; apply Z.leb_gt; destruct Hhi as [|Hhi]; [lia|exact Hhi]).
      cbn [andb option_map result_bind]. unfold hrb_return.
      cbn [fst snd format_1f]. rewrite Hof. cbn [result_bind].
      rewrite Hu. cbn [result_bind].
      replace (d - 53) with (d - 53 - 10 * Z.of_nat 0) by lia.
      now rewrite F.
    + replace (1024 <=? Zpos p) with true.
      2:{ symmetry; apply Z.leb_le. destruct Hlo as [|Hlo]; [lia|].
          assert (2 ^ 10 <= 2 ^ (10 * Z.of_nat (S k)))
            by (apply Z.pow_le_mono_r; lia).
          change (2 ^ 10) with 1024 in *. lia. }
      cbn [andb Nat.ltb Nat.leb num_truediv].
      unfold PyFloat.int_truediv. rewrite Hof. cbn [result_bind].
      unfold PyFloat.truediv. rewrite step_not_zero, step_pow2.
      rewrite (div_pow2_normal false m (d - 53) 10 Hd) by lia.
      rewrite (hrb_loop_normal k 3 m (d - 53 - 10) (0 + 1) Hd); try lia.
      cbn [option_map result_bind]. unfold hrb_return.
      cbn [fst snd format_1f result_bind Nat.add].
      rewrite Hu. cbn [result_bind].
      replace (d - 53 - 10 - 10 * Z.of_nat k)
        with (d - 53 - 10 * Z.of_nat (S k)) by lia.
      now rewrite F.
Qed.

(** * Properties of [format_bytes_per_sec] *)

Lemma div_1024_normal s m e :
  Zpos (digits2_pos m) = 53 -> -1063 <= e <= 971 ->
  PyFloat.truediv (S754_finite s m e) (PyFloat.lit 1024)
  = Ok (S754_finite s m (e - 10)).
Proof.
  intros Hd He. unfold PyFloat.truediv. rewrite lit_1024.
  cbn [PyFloat.is_zero pow2_float].
  change (S754_finite false 4503599627370496 (10 - 52)) with (pow2_float 10).
  now rewrite div_pow2_normal by lia.
Qed.

(** X8. On a normal float the unit is decided by the value itself: B/s
    below 1024 (negative rates included), KB/s from 1024 up to 1048576
    excluded, MB/s from there on; the number printed under KB/s and MB/s is
    the value divided by 1024 or 1048576 without rounding before the decimal
    conversion. *)
Theorem format_bytes_per_sec_float x :
  normal x ->
  format_bytes_per_sec (PyFlt x)
  = Ok (if PyFloat.lt_int x 1024 then format_0f_float x ++ " B/s"
        else if PyFloat.lt_int x 1048576
             then format_1f_float (scale_down x 10) ++ " KB/s"
             else format_1f_float (scale_down x 20) ++ " MB/s")%string.
Proof.
  destruct x as [s|s| |s m e]; try contradiction.
  intros [Hd He]. unfold format_bytes_per_sec. cbn [num_lt_int format_0f].
  destruct (compare_int_pow2_normal s m e 10 Hd ltac:(lia)) as [L10 _].
  destruct (compare_int_pow2_normal s m e 20 Hd ltac:(lia)) as [L20 _].
  change (2 ^ 10) with 1024 in L10. change (2 ^ 20) with 1048576 in L20.
  rewrite L20. clear L20.
  destruct (PyFloat.lt_int (S754_finite s m e) 1024) eqn:E; [reflexivity|].
  symmetry in L10. apply orb_false_iff in L10 as [-> L10].
  apply Z.ltb_ge in L10.
  cbn [num_truediv orb scale_down].
  rewrite div_1024_normal by (try assumption; lia). cbn [result_bind].
  rewrite div_1024_normal by (try assumption; lia). cbn [result_bind].
  destruct (compare_int_pow2_normal false m (e - 10) 10 Hd ltac:(lia)) as [L _].
  change (2 ^ 10) with 1024 in L. rewrite L. cbn [orb].
  replace (e - 10 <? 10 - 52) with (e <? 20 - 52)
    by (destruct (Z.ltb_spec e (20 - 52)); destruct (Z.ltb_spec (e - 10) (10 - 52));
        try reflexivity; lia).
  replace (e - 10 - 10) with (e - 20) by lia.
  now destruct (e <? 20 - 52).
Qed.

(** The units of [z], read off a mantissa that is [z] shifted left. *)
Lemma ones_scaled m z t :
  0 <= t -> Zpos m = z * 2 ^ t -> ones m (- t) = z.
Proof.
  intros Ht Hm. unfold ones.
  assert (Pt : 0 < 2 ^ t) by (apply Z.pow_pos_nonneg; lia).
  destruct (Z.leb_spec 0 (- t)) as [H|H].
  - assert (t = 0) by lia. subst t. cbn [Z.opp]. rewrite Z.pow_0_r in *. lia.
  - rewrite Z.opp_involutive, Hm.
    replace (2 ^ t) with (1 * 2 ^ t) at 2 by lia.
    rewrite round_half_even_div_scale by lia.
    unfold round_half_even_div. rewrite Z.div_1_r, Z.mod_1_r.
    change (2 * 0 ?= 1) with Lt. reflexivity.
Qed.

(** X9. On an int below 2^53: below 1024 the int itself is printed, followed
    by B/s; from 1024 up to 1048576 excluded it is z / 1024 with one decimal
    (nearest, ties to even) and KB/s; from there on z / 1048576 and MB/s.
    There is no larger unit. *)
Theorem format_bytes_per_sec_int z :
  0 <= z < 2 ^ 53 ->
  format_bytes_per_sec (PyInt z)
  = Ok (if z <? 1024 then (decimal z ++ " B/s")%string
        else if z <? 1048576 then (one_decimal z 1024 ++ " KB/s")%string
             else (one_decimal z 1048576 ++ " MB/s")%string).
Proof.
  intros Hz. unfold format_bytes_per_sec. cbn [num_lt_int format_0f num_truediv].
  destruct z as [|p|p]; [reflexivity| |lia].
  destruct (round_int_below_2_53 p ltac:(lia)) as (m & Hr & Hd & Hm).
  pose proof (digits2_bounds p) as Hb.
  set (d := Zpos (digits2_pos p)) in *.
  assert (Hd1 : 1 <= d) by (subst d; lia).
  assert (Hd53 : d <= 53).
  { destruct (Z.le_gt_cases d 53) as [|Hgt]; [assumption|].
    assert (2 ^ 53 <= 2 ^ (d - 1)) by (apply Z.pow_le_mono_r; lia). lia. }
  assert (Hof : PyFloat.of_int (Zpos p) = Ok (S754_finite false m (d - 53)))
    by (unfold PyFloat.of_int; now rewrite Hr).
  unfold PyFloat.int_truediv. rewrite Hof. cbn [result_bind].
  destruct (Z.ltb_spec (Zpos p) 1024) as [L1|L1].
  - cbn [format_0f_float]. do 2 f_equal. cbn [append]. f_equal.
    replace (d - 53) with (- (53 - d)) by lia.
    now apply ones_scaled; [lia|].
  - assert (D11 : 11 <= d).
    { destruct (Z.le_gt_cases 11 d) as [|Hlt]; [assumption|].
      assert (2 ^ d <= 2 ^ 10) by (apply Z.pow_le_mono_r; lia).
      change (2 ^ 10) with 1024 in *. lia. }
    rewrite div_1024_normal by (try assumption; lia). cbn [result_bind].
    rewrite div_1024_normal by (try assumption; lia). cbn [result_bind].
    destruct (compare_int_pow2_normal false m (d - 53 - 10) 10 Hd ltac:(lia))
      as [L _].
    change (2 ^ 10) with 1024 in L. rewrite L. cbn [orb]. clear L.
    assert (F : forall j, 0 <= j ->
                format_1f_float (S754_finite false m (d - 53 - j))
                = one_decimal (Zpos p) (2 ^ j)).
    { intros j Hj. unfold format_1f_float, one_decimal.
      replace (d - 53 - j) with (- ((53 - d) + j)) by lia.
      now rewrite (tenths_scaled m (Zpos p) (53 - d) j) by lia. }
    destruct (Z.ltb_spec (Zpos p) 1048576) as [L2|L2].
    + replace (d - 53 - 10 <? 10 - 52) with true.
      * now rewrite (F 10) by lia.
      * symmetry. apply Z.ltb_lt.
        destruct (Z.le_gt_cases d 20) as [|Hgt]; [lia|].
        assert (2 ^ 20 <= 2 ^ (d - 1)) by (apply Z.pow_le_mono_r; lia).
        change (2 ^ 20) with 1048576 in *. lia.
    + replace (d - 53 - 10 <? 10 - 52) with false.
      * replace (d - 53 - 10 - 10) with (d - 53 - 20) by lia.
        now rewrite (F 20) by lia.
      * symmetry. apply Z.ltb_ge.
        destruct (Z.le_gt_cases 21 d) as [|Hlt]; [lia|].
        assert (2 ^ d <= 2 ^ 20) by (apply Z.pow_le_mono_r; lia).
        change (2 ^ 20) with 1048576 in *. lia.
Qed.

(** X10. A float never makes [format_bytes_per_sec] raise, whatever it is
    (infinite, NaN, negative): a string ending in one of the three units is
    returned. In particular every rate returned by [sample] can be printed. *)
Theorem format_bytes_per_sec_float_returns x :
  exists s u,
    format_bytes_per_sec (PyFlt x) = Ok (s ++ u)%string /\
    In u [" B/s"; " KB/s"; " MB/s"]%string.
Proof.
  unfold format_bytes_per_sec. cbn [num_lt_int format_0f num_truediv].
  destruct (PyFloat.lt_int x 1024).
  - cbn [result_bind]. eexists _, _. split; [reflexivity|]. cbn. auto.
  - unfold PyFloat.truediv. rewrite lit_1024. cbn [PyFloat.is_zero pow2_float result_bind].
    destruct (PyFloat.lt_int _ 1024);
      eexists _, _; (split; [reflexivity|]); cbn; auto.
Qed.

(** * Ints that do not fit a float *)

Lemma of_int_raises_overflow z e : PyFloat.of_int z = Raise e -> e = OverflowError.
Proof.
  unfold PyFloat.of_int. destruct (PyFloat.round_int z); congruence.
Qed.

(** X12. On an int of any sign [human_readable_bytes] returns exactly when
    the int converts to a float; otherwise it raises [OverflowError], at the
    first division for an int from 1024 on and while printing for one below
    1024. No other exception can come out. *)
Theorem human_readable_bytes_int_fails_only_by_overflow z :
  exists r,
    human_readable_bytes (PyInt z) = Some r /\
    returned r = returned (PyFloat.of_int z) /\
    (returned r = false -> r = Raise OverflowError).
Proof.
  unfold human_readable_bytes, human_readable_bytes_fuel.
  rewrite units_last, (hrb_loop_S 3), num_ge_int_step.
  cbn [Nat.ltb Nat.leb]. rewrite andb_true_r.
  destruct (1024 <=? z).
  - cbn [num_truediv]. unfold PyFloat.int_truediv, PyFloat.truediv.
    destruct (PyFloat.of_int z) as [x|e] eqn:E; cbn [result_bind].
    + rewrite step_not_zero.
      destruct (hrb_loop_float 3 (PyFloat.div x step) (0 + 1) ltac:(lia) ltac:(lia))
        as (x' & i' & -> & Hi).
      cbn [option_map result_bind]. unfold hrb_return. cbn [fst snd format_1f result_bind].
      destruct (units_at_In i' Hi) as (u & -> & _). cbn [result_bind].
      eexists. split; [reflexivity|]. split; [reflexivity|discriminate].
    + rewrite (of_int_raises_overflow _ _ E). cbn [option_map result_bind].
      eexists. split; [reflexivity|]. auto.
  - cbn [option_map result_bind]. unfold hrb_return. cbn [fst snd format_1f units_at nth_error units].
    destruct (PyFloat.of_int z) as [x|e] eqn:E; cbn [result_bind].
    + eexists. split; [reflexivity|]. split; [reflexivity|discriminate].
    + rewrite (of_int_raises_overflow _ _ E).
      eexists. split; [reflexivity|]. auto.
Qed.

(** X13. The same holds for [format_bytes_per_sec] on an int: it returns
    exactly when the int converts to a float and raises [OverflowError]
    otherwise. *)
Theorem format_bytes_per_sec_int_fails_only_by_overflow z :
  returned (format_bytes_per_sec (PyInt z)) = returned (PyFloat.of_int z) /\
  (returned (format_bytes_per_sec (PyInt z)) = false ->
   format_bytes_per_sec (PyInt z) = Raise OverflowError).
Proof.
  unfold format_bytes_per_sec. cbn [num_lt_int format_0f num_truediv].
  unfold PyFloat.int_truediv, PyFloat.truediv. rewrite lit_1024.
  cbn [PyFloat.is_zero pow2_float].
  destruct (PyFloat.of_int z) as [x|e] eqn:E; cbn [result_bind].
  - destruct (z <? 1024); cbn [result_bind returned].
    + split; [reflexivity|discriminate].
    + destruct (PyFloat.lt_int _ 1024); split; (reflexivity || discriminate).
  - rewrite (of_int_raises_overflow _ _ E).
    destruct (z <? 1024); cbn; auto.
Qed.

(** * Properties of the plot data built by [update] *)

Lemma kb_series_map xs :
  kb_series xs = Ok (map (fun s => PyFloat.div s (PyFloat.lit 1024)) xs).
Proof.
  induction xs as [|s xs IH]; [reflexivity|].
  cbn [kb_series map]. unfold PyFloat.truediv at 1. rewrite lit_1024 at 1.
  cbn [PyFloat.is_zero pow2_float result_bind]. rewrite IH. reflexivity.
Qed.

(** X11. On every state the program can be in, the x axis built by [update]
    runs from -59 to 0 in steps of 1, one point per item of each history;
    the two network series converted to KB/s are computed without raising
    and have that same length, so every curve gets x and y of equal
    length. *)
Theorem update_plot_data_aligned self :
  reachable self ->
  update_x self = map (fun k => Z.of_nat k - 59) (seq 0 60) /\
  List.length (update_x self) = List.length (items (cpu_hist self)) /\
  List.length (update_x self) = List.length (items (ram_hist self)) /\
  (exists ys, kb_series (items (net_sent_hist self)) = Ok ys /\
              List.length ys = List.length (update_x self)) /\
  (exists ys, kb_series (items (net_recv_hist self)) = Ok ys /\
              List.length ys = List.length (update_x self)).
Proof.
  intros Hr.
  destruct (reachable_full self Hr) as ((_ & H1) & (_ & H2) & (_ & H3) & (_ & H4)).
  unfold deque_len, MAX_HISTORY in *.
  assert (X : update_x self = map (fun k => Z.of_nat k - 59) (seq 0 60)).
  { unfold update_x, deque_len, py_range. rewrite H1.
    change (Z.to_nat (1 - (- Z.of_nat 60 + 1))) with 60%nat.
    apply map_ext. intros k. lia. }
  rewrite X, length_map, length_seq, H1, H2.
  repeat split.
  - eexists. split; [apply kb_series_map|]. now rewrite length_map.
  - eexists. split; [apply kb_series_map|]. now rewrite length_map.
Qed.

(** * Further concrete runs *)

(** Sixty-one ticks after boot. *)
Lemma histories_hold_last_60_samples_run :
  let self := fst (sample_seq (ticks 1 61) boot) in
  let ds := returned_samples (snd (sample_seq (ticks 1 61) boot)) in
  let recent := skipn (List.length ds - 60) ds in
  List.length recent = 60%nat /\
  items (cpu_hist self) = map cpu recent /\
  items (ram_hist self) = map ram recent /\
  items (net_sent_hist self) = map net_sent recent /\
  items (net_recv_hist self) = map net_recv recent.
Proof.
  apply (histories_hold_last_60_samples (Snetio 0 0) (PyFloat.lit 0) (ticks 1 61)).
  vm_compute. repeat constructor.
Defined.

(** 1536.0 is printed as 1.5 KB. *)
Lemma human_readable_bytes_float_units_run :
  human_readable_bytes (PyFlt (PyFloat.lit 1536)) = Some (Ok "1.5 KB"%string).
Proof.
  apply (human_readable_bytes_float_units (PyFloat.lit 1536) 1).
  - vm_compute. repeat split; discriminate.
  - lia.
  - right. reflexivity.
  - right. reflexivity.
Defined.

(** 123456789 bytes are 117.7 MB. *)
Lemma human_readable_bytes_int_units_run :
  human_readable_bytes (PyInt 123456789) = Some (Ok "117.7 MB"%string).
Proof.
  apply (human_readable_bytes_int_units 123456789 2).
  - vm_compute. split; [discriminate|reflexivity].
  - lia.
  - right. vm_compute. discriminate.
  - right. reflexivity.
Defined.

(** A rate of 1536.0 bytes per second is 1.5 KB/s. *)
Lemma format_bytes_per_sec_float_run :
  format_bytes_per_sec (PyFlt (PyFloat.lit 1536)) = Ok "1.5 KB/s"%string.
Proof.
  apply (format_bytes_per_sec_float (PyFloat.lit 1536)).
  vm_compute. repeat split; discriminate.
Defined.

(** 5.5 * 1048576 bytes per second are 5.5 MB/s. *)
Lemma format_bytes_per_sec_int_run :
  format_bytes_per_sec (PyInt 5767168) = Ok "5.5 MB/s"%string.
Proof.
  apply (format_bytes_per_sec_int 5767168).
  vm_compute. split; [discriminate|reflexivity].
Defined.

(** The plot data right after boot. *)
Lemma update_plot_data_aligned_run :
  update_x boot = map (fun k => Z.of_nat k - 59) (seq 0 60) /\
  List.length (update_x boot) = List.length (items (cpu_hist boot)) /\
  List.length (update_x boot) = List.length (items (ram_hist boot)) /\
  (exists ys, kb_series (items (net_sent_hist boot)) = Ok ys /\
              List.length ys = List.length (update_x boot)) /\
  (exists ys, kb_series (items (net_recv_hist boot)) = Ok ys /\
              List.length ys = List.length (update_x boot)).
Proof.
  exact (update_plot_data_aligned boot (reach_init (Snetio 0 0) (PyFloat.lit 0))).
Defined.

(** Edge values of [format_bytes_per_sec]. *)
Example format_bytes_per_sec_values :
  format_bytes_per_sec (PyInt 0) = Ok "0 B/s"%string /\
  format_bytes_per_sec (PyInt 1023) = Ok "1023 B/s"%string /\
  format_bytes_per_sec (PyInt 1024) = Ok "1.0 KB/s"%string /\
  format_bytes_per_sec (PyInt 1048576) = Ok "1.0 MB/s"%string /\
  format_bytes_per_sec (PyFlt (PyFloat.lit (-500))) = Ok "-500 B/s"%string /\
  format_bytes_per_sec (PyFlt S754_nan) = Ok "nan MB/s"%string /\
  format_bytes_per_sec (PyFlt (S754_infinity false)) = Ok "inf MB/s"%string /\
  format_bytes_per_sec (PyInt (2 ^ 1024)) = Raise OverflowError.
Proof. vm_compute. repeat split. Qed.

(** Failing reads, right after boot: nothing is recorded. *)
Example sample_os_failures :
  let no_nic := OsCalls (PyFloat.lit 1) (Returns (PyFloat.lit 25))
                        (Returns (PyFloat.lit 40)) (Returns None) in
  let denied := OsCalls (PyFloat.lit 1) (Returns (PyFloat.lit 25))
                        (Raises (ReadError "AccessDenied")) (Returns None) in
  let fine := OsCalls (PyFloat.lit 1) (Returns (PyFloat.lit 25))
                      (Returns (PyFloat.lit 40)) (Returns (Some (Snetio 2048 1024))) in
  sample_os no_nic boot = (boot, Raises AttributeError) /\
  sample_os denied boot = (boot, Raises (ReadError "AccessDenied")) /\
  snd (sample_os fine boot)
  = Returns (SampleDict (PyFloat.lit 25) (PyFloat.lit 40)
                        (PyFloat.lit 2048) (PyFloat.lit 1024)).
Proof. vm_compute. repeat split. Qed.
